(** * Verification of gmail_unattended_script.py

    A shallow embedding of the daily-digest script: the fetcher, the
    classifier, the mutator, the reporter and [main], over an explicit
    model of the two remote services (the mail provider and the
    language-model endpoint).

    Conventions.
    - A Python [str] is a Rocq [string]; each character stands for one code
      point below 256.
    - A value produced by [json.loads] is a [pyval].
    - Code that talks to a service runs in the monad [M]: it threads a
      [world] (the mailbox's unread flags and the log of requests issued so
      far) and ends in [Done], [Raised] (a Python exception) or [OutOfFuel]
      (the [while True] loop of the fetcher was cut off by the model).
    - What the services answer is a parameter, [services]; an answer may
      depend on everything requested before. *)

From Stdlib Require Import Ascii String DecimalString.
From stdpp Require Import base decidable option list strings gmap sets.

Local Open Scope string_scope.
Local Open Scope list_scope.

(** ** Python strings *)

Module PyStr.

(** ["\n"] *)
Definition nl : string := String "010"%char EmptyString.

(** [str(i)] for a non-negative [int]. *)
Definition of_nat (n : nat) : string := NilEmpty.string_of_uint (Nat.to_uint n).

(** [c.lower()] on one character: A-Z, and the upper-case letters of the
    Latin-1 supplement (U+00C0-U+00DE without the multiplication sign). *)
Definition lower_char (c : ascii) : ascii :=
  let n := nat_of_ascii c in
  if (((65 <=? n) && (n <=? 90)) || ((192 <=? n) && (n <=? 222) && negb (n =? 215)))%nat
  then ascii_of_nat (n + 32)
  else c.

(** [s.lower()] *)
Fixpoint lower (s : string) : string :=
  match s with
  | EmptyString => EmptyString
  | String c s' => String (lower_char c) (lower s')
  end.

(** [c.isspace()]: TAB, LF, VT, FF, CR, the four separators FS, GS, RS, US,
    SPACE, NEL and NO-BREAK SPACE. *)
Definition isspace (c : ascii) : bool :=
  let n := nat_of_ascii c in
  (((9 <=? n) && (n <=? 13)) || ((28 <=? n) && (n <=? 32)) || (n =? 133) || (n =? 160))%nat.

(** [s.lstrip()] *)
Fixpoint lstrip (s : string) : string :=
  match s with
  | EmptyString => EmptyString
  | String c s' => if isspace c then lstrip s' else s
  end.

(** [s.rstrip()] *)
Fixpoint rstrip (s : string) : string :=
  match s with
  | EmptyString => EmptyString
  | String c s' =>
      match rstrip s' with
      | EmptyString => if isspace c then EmptyString else String c EmptyString
      | r => String c r
      end
  end.

(** [s.strip()] *)
Definition strip (s : string) : string := rstrip (lstrip s).

(** [s.split(sep)] for a separator of one character: always at least one
    piece, one more piece than there are separators. *)
Fixpoint split (sep : ascii) (s : string) : list string :=
  match s with
  | EmptyString => [EmptyString]
  | String c s' =>
      if Ascii.eqb c sep then EmptyString :: split sep s'
      else match split sep s' with
           | [] => [String c EmptyString]
           | piece :: pieces => String c piece :: pieces
           end
  end.

(** [sep.join(pieces)] for pieces that are all [str]. *)
Definition join (sep : string) (pieces : list string) : string :=
  String.concat sep pieces.

(** [bool(s)] *)
Definition truthy (s : string) : bool :=
  match s with EmptyString => false | _ => true end.

End PyStr.

(** [l[1:-1]] *)
Definition slice_1_m1 {A} (l : list A) : list A := take (length l - 2) (drop 1 l).

(** [enumerate(l, start)] *)
Fixpoint enumerate {A} (start : nat) (l : list A) : list (nat * A) :=
  match l with
  | [] => []
  | x :: l' => (start, x) :: enumerate (S start) l'
  end.

(** ** Python values and exceptions *)

(** What [json.loads] can return. A float keeps its literal. *)
#[local] Set Warnings "-register-all".
Inductive pyval :=
| PyNone
| PyBool (b : bool)
| PyInt (z : Z)
| PyFloat (literal : string)
| PyString (s : string)
| PyList (items : list pyval)
| PyDict (items : list (string * pyval)).

(** [v == s] for a [str] [s]: only an equal [str] compares equal. *)
Definition py_eq_str (v : pyval) (s : string) : bool :=
  match v with
  | PyString t => String.eqb t s
  | _ => false
  end.

(** [d.get(key, default)] on the items of a dict (keys are distinct). *)
Fixpoint dict_get (items : list (string * pyval)) (key : string) (default : pyval) : pyval :=
  match items with
  | [] => default
  | (k, v) :: items' => if String.eqb k key then v else dict_get items' key default
  end.

(** [key in d] *)
Definition dict_has (items : list (string * pyval)) (key : string) : bool :=
  existsb (fun kv => String.eqb (fst kv) key) items.

(** An instance of [Exception]: its class and [str(e)]. *)
Record exn := Exn { exn_class : string; exn_str : string }.

Inductive result (A : Type) :=
| Ok (a : A)
| Err (e : exn).
Arguments Ok {A} a.
Arguments Err {A} e.

(** [sep.join(lines)] where the items are arbitrary objects: a [TypeError]
    unless every item is a [str]. The text of the exception is abridged
    (Python names the index of the item and the type it found). *)
Fixpoint all_str (items : list pyval) : result (list string) :=
  match items with
  | [] => Ok []
  | PyString s :: items' =>
      match all_str items' with
      | Ok ss => Ok (s :: ss)
      | Err e => Err e
      end
  | _ :: _ => Err (Exn "TypeError" "sequence item: expected str instance")
  end.

Definition py_join (sep : string) (items : list pyval) : result string :=
  match all_str items with
  | Ok ss => Ok (PyStr.join sep ss)
  | Err e => Err e
  end.

(** ** The services and the world *)

(** Gmail API resources, as the script reads them. An absent key is [None]. *)
Record header := Header { h_name : string; h_value : string }.
Record payload := Payload { pl_headers : option (list header) }.
Record msg_detail := MsgDetail { md_snippet : option string; md_payload : option payload }.
Record msg_ref := MsgRef { ref_id : string }.
Record list_response :=
  ListResponse { lr_messages : option (list msg_ref); lr_nextPageToken : option string }.

(** A chat completion. [fc_arguments] is the arguments text of the function
    call, given by what [json.loads] makes of it: the decoded value, or the
    exception [json.loads] raises on it. *)
Record function_call := FunctionCall { fc_name : string; fc_arguments : result pyval }.
Record chat_message :=
  ChatMessage { msg_content : option string; msg_function_call : option function_call }.
Record choice := Choice { message : chat_message }.
Record chat_response := ChatResponse { choices : list choice }.

(** The requests the script sends ([userId] is always ["me"]; the body of a
    modify request is always [{"removeLabelIds": ["UNREAD"]}]). [ReqBuild]
    stands for the whole of the authenticator. [ReqSend] records the three
    arguments [send_html_email] was called with: what is transmitted is
    their encoding by [MIMEText], [as_bytes] and base64, which belongs to
    the libraries and is not modelled (it may, for one, rewrite line
    ends). *)
Inductive request :=
| ReqBuild
| ReqList (q : string) (pageToken : option string)
| ReqGet (id : string)
| ReqModify (id : string)
| ReqSend (to_address subject html_content : string)
| ReqChat (model : string) (messages : list (string * string)) (functions : bool).

(** A request and whether it was answered ([true]) or raised ([false]). *)
Record event := Event { ev_req : request; ev_ok : bool }.

(** The answers of the outside world, each as a function of the requests
    issued before. [datetime_now] is the clock, already formatted with
    ["%B %d, %Y"]. *)
Record services := Services {
  gmail_build : list event -> result unit;
  messages_list : list event -> string -> option string -> result list_response;
  messages_get : list event -> string -> result msg_detail;
  messages_modify : list event -> string -> result unit;
  messages_send : list event -> string -> string -> string -> result unit;
  chat_completions_create :
    list event -> string -> list (string * string) -> bool -> result chat_response;
  datetime_now : list event -> string;
}.

(** The mailbox keeps, of the messages that are in it when the run starts,
    the ids that carry the UNREAD label; the trace lists the requests
    issued so far, oldest first. Mail that arrives during the run (the
    digest itself, when the recipient is the account's own address) is
    not represented, so nothing is said of its flags. *)
Record world := World { unread : gset string; trace : list event }.

(** ** The monad of the script *)

Inductive outcome (A : Type) :=
| Done (a : A)
| Raised (e : exn)
| OutOfFuel.
Arguments Done {A} a.
Arguments Raised {A} e.
Arguments OutOfFuel {A}.

Definition M (A : Type) : Type := world -> outcome A * world.

Definition ret {A} (a : A) : M A := fun w => (Done a, w).

Definition raise {A} (e : exn) : M A := fun w => (Raised e, w).

Definition out_of_fuel {A} : M A := fun w => (OutOfFuel, w).

Definition bind {A B} (m : M A) (k : A -> M B) : M B :=
  fun w =>
    match m w with
    | (Done a, w') => k a w'
    | (Raised e, w') => (Raised e, w')
    | (OutOfFuel, w') => (OutOfFuel, w')
    end.

(** [try: body except Exception as e: handler(e)] *)
Definition try_except {A} (body : M A) (handler : exn -> M A) : M A :=
  fun w =>
    match body w with
    | (Raised e, w') => handler e w'
    | r => r
    end.

(** A computation that only fails, such as [json.loads] or [join]. *)
Definition lift {A} (r : result A) : M A :=
  match r with
  | Ok a => ret a
  | Err e => raise e
  end.

Declare Scope script_scope.
Delimit Scope script_scope with script.
Notation "x <- c1 ;; c2" := (bind c1 (fun x => c2))
  (at level 100, c1 at next level, right associativity) : script_scope.
Notation "c1 ;; c2" := (bind c1 (fun _ => c2))
  (at level 100, right associativity) : script_scope.
Local Open Scope script_scope.

(** [.execute()] of a request: the answer is logged with its outcome. *)
Definition execute {A} (req : request) (answer : list event -> result A) : M A :=
  fun w =>
    match answer (trace w) with
    | Ok a => (Done a, World (unread w) (trace w ++ [Event req true]))
    | Err e => (Raised e, World (unread w) (trace w ++ [Event req false]))
    end.

(** A modify request that succeeds takes the UNREAD label off the message;
    one that raises leaves the mailbox as it was. *)
Definition execute_modify (id : string) (answer : list event -> result unit) : M unit :=
  fun w =>
    match answer (trace w) with
    | Ok _ => (Done tt, World (unread w ∖ {[ id ]}) (trace w ++ [Event (ReqModify id) true]))
    | Err e => (Raised e, World (unread w) (trace w ++ [Event (ReqModify id) false]))
    end.

(** [l[0]] *)
Definition index0 {A} (l : list A) : M A :=
  match l with
  | x :: _ => ret x
  | [] => raise (Exn "IndexError" "list index out of range")
  end.

(** [v.get(key, default)]: only a dict has the method. The text of the
    exception is abridged (Python names the type of the object). *)
Definition py_get (v : pyval) (key : string) (default : pyval) : M pyval :=
  match v with
  | PyDict items => ret (dict_get items key default)
  | _ => raise (Exn "AttributeError" "object has no attribute 'get'")
  end.

(** ** The script *)

Definition OPENAI_MODEL_CLASSIFY : string := "gpt-4o".
Definition OPENAI_MODEL_SUMMARY : string := "o1-preview".
Definition SEND_TO_EMAIL : string := "blgottshall@gmail.com".

(** A record of [emails_data]: the keys ["id"], ["subject"], ["snippet"]. *)
Record email := Email { email_id : string; email_subject : string; email_snippet : string }.

(** What [classify_and_summarize_email] returns: the keys ["category"] and
    ["summary"], each holding whatever the response held. *)
Record classification := Classification { category : pyval; summary : pyval }.

(** A record of [classified_emails]: the same dict with ["category"] and
    ["summary"] added. *)
Record classified_email := ClassifiedEmail {
  c_id : string;
  c_subject : string;
  c_snippet : string;
  c_category : pyval;
  c_summary : pyval;
}.

(** The loop over the headers, up to its [break]. *)
Fixpoint find_subject (headers : list header) : option string :=
  match headers with
  | [] => None
  | h :: headers' =>
      if String.eqb (PyStr.lower (h_name h)) "subject" then Some (h_value h)
      else find_subject headers'
  end.

(** [subject or "(No Subject)"] *)
Definition subject_or_default (subject : option string) : string :=
  match subject with
  | Some s => if PyStr.truthy s then s else "(No Subject)"
  | None => "(No Subject)"
  end.

(** [msg_detail.get("payload", {}).get("headers", [])] *)
Definition detail_headers (msg_detail : msg_detail) : list header :=
  default [] (pl_headers (default (Payload None) (md_payload msg_detail))).

(** The record appended for a message, from its id and its detail. *)
Definition email_of_detail (id : string) (msg_detail : msg_detail) : email :=
  let snippet := default "" (md_snippet msg_detail) in
  let headers := detail_headers msg_detail in
  let subject := find_subject headers in
  Email id (subject_or_default subject) snippet.

Definition system_instructions : string :=
  "You are an email classification and summarization service. "
  +:+ "Categorize each email into exactly one of: 'newsletter', 'notification', or 'important'. "
  +:+ "Then produce a concise summary in Markdown, carefully extracting key points without "
  +:+ "omitting vital information. If the email references new invitations, messages, or calls to action, "
  +:+ "include them. Only use details from the subject/snippet. Do not invent or guess details.".

(** The [messages] of a classification request. *)
Definition classification_messages (subject snippet : string) : list (string * string) :=
  [ ("system", system_instructions);
    ("user", "Subject: " +:+ subject +:+ PyStr.nl +:+ PyStr.nl
             +:+ "Email snippet:" +:+ PyStr.nl +:+ snippet) ].

Definition no_function_call_summary : string :=
  "Unable to parse email with function calling. Defaulting to 'important'.".

Definition error_summary (e : exn) : string :=
  "Error occurred. Defaulting to category 'important'." +:+ PyStr.nl +:+ PyStr.nl
  +:+ "**Details:** " +:+ exn_str e.

(** The three lines appended for one entry of a group. *)
Definition entry_lines (i : nat) (email : classified_email) : list pyval :=
  [ PyString ("**" +:+ PyStr.of_nat i +:+ ".** **Subject:** " +:+ c_subject email);
    c_summary email;
    PyString "" ].

(** [if group: lines.append(header); for i, email in enumerate(group, start=1): ...] *)
Definition append_group (header : string) (group : list classified_email)
    (lines : list pyval) : list pyval :=
  match group with
  | [] => lines
  | _ :: _ =>
      fold_left (fun lines ie => lines ++ entry_lines (fst ie) (snd ie))
                (enumerate 1 group)
                (lines ++ [PyString header])
  end.

Definition has_category (name : string) (e : classified_email) : bool :=
  py_eq_str (c_category e) name.

(** The list [lines] as it stands before the final join. *)
Definition summary_lines (date : string) (classified_emails : list classified_email)
    : list pyval :=
  let important_emails := List.filter (has_category "important") classified_emails in
  let notification_emails := List.filter (has_category "notification") classified_emails in
  let newsletter_emails := List.filter (has_category "newsletter") classified_emails in
  let lines := [] in
  let lines := lines ++ [PyString ("**Executive Summary for " +:+ date +:+ "**" +:+ PyStr.nl)] in
  let lines := append_group ("### Important Emails" +:+ PyStr.nl) important_emails lines in
  let lines := append_group ("### Notifications" +:+ PyStr.nl) notification_emails lines in
  let lines := append_group ("### Newsletters" +:+ PyStr.nl) newsletter_emails lines in
  lines ++ [PyString (PyStr.nl +:+ "**End of Summary**")].

(** The two statements of [convert_md_to_html] that follow the request. *)
Definition strip_fences (content : string) : string :=
  let html_output := PyStr.strip content in
  PyStr.join PyStr.nl (slice_1_m1 (PyStr.split "010"%char html_output)).

Section Script.

Variable svc : services.

(** *** 1. Authentication *)

Definition get_gmail_service : M unit := execute ReqBuild (gmail_build svc).

(** *** 2. The fetcher *)

(** [for msg in messages: ...] *)
Fixpoint fetch_messages (messages : list msg_ref) (emails_data : list email)
    : M (list email) :=
  match messages with
  | [] => ret emails_data
  | msg :: messages' =>
      msg_detail <- execute (ReqGet (ref_id msg))
                            (fun h => messages_get svc h (ref_id msg)) ;;
      fetch_messages messages' (emails_data ++ [email_of_detail (ref_id msg) msg_detail])
  end.

(** [while True: ...]; [fuel] bounds the number of pages. *)
Fixpoint fetch_pages (fuel : nat) (page_token : option string) (emails_data : list email)
    : M (list email) :=
  match fuel with
  | O => out_of_fuel
  | S fuel' =>
      let query := "is:unread newer_than:1d" in
      response <- execute (ReqList query page_token)
                          (fun h => messages_list svc h query page_token) ;;
      let messages := default [] (lr_messages response) in
      emails_data <- fetch_messages messages emails_data ;;
      let page_token := lr_nextPageToken response in
      match page_token with
      | Some t => if PyStr.truthy t then fetch_pages fuel' page_token emails_data
                  else ret emails_data
      | None => ret emails_data
      end
  end.

Definition get_unread_emails_past_24h (fuel : nat) : M (list email) :=
  try_except (fetch_pages fuel None []) (fun e => ret []).

(** *** 3. The classifier *)

Definition classify_and_summarize_email (subject snippet : string) : M classification :=
  let messages := classification_messages subject snippet in
  try_except
    (response <- execute (ReqChat OPENAI_MODEL_CLASSIFY messages true)
                   (fun h => chat_completions_create svc h OPENAI_MODEL_CLASSIFY messages true) ;;
     choice <- index0 (choices response) ;;
     match msg_function_call (message choice) with
     | None =>
         ret (Classification (PyString "important") (PyString no_function_call_summary))
     | Some function_call_obj =>
         args_dict <- lift (fc_arguments function_call_obj) ;;
         category <- py_get args_dict "category" (PyString "important") ;;
         summary_md <- py_get args_dict "summary" (PyString "") ;;
         ret (Classification category summary_md)
     end)
    (fun e => ret (Classification (PyString "important") (PyString (error_summary e)))).

(** *** 4. The mutator *)

Fixpoint mark_non_important_as_read (classified_emails : list classified_email) : M unit :=
  match classified_emails with
  | [] => ret tt
  | email :: classified_emails' =>
      let category := c_category email in
      let message_id := c_id email in
      (if negb (py_eq_str category "important")
       then try_except
              (execute_modify message_id (fun h => messages_modify svc h message_id))
              (fun e => ret tt)
       else ret tt) ;;
      mark_non_important_as_read classified_emails'
  end.

(** *** 5. The reporter *)

Definition get_current_date_string : M string :=
  fun w => (Done (datetime_now svc (trace w)), w).

Definition generate_executive_summary (classified_emails : list classified_email)
    : M string :=
  date <- get_current_date_string ;;
  lift (py_join PyStr.nl (summary_lines date classified_emails)).

Definition convert_md_to_html (markdown_text : string) : M string :=
  let prompt :=
    "Convert the following Markdown to HTML." +:+ PyStr.nl +:+ PyStr.nl +:+ markdown_text in
  try_except
    (response <- execute (ReqChat OPENAI_MODEL_SUMMARY [("user", prompt)] false)
                   (fun h => chat_completions_create svc h OPENAI_MODEL_SUMMARY
                               [("user", prompt)] false) ;;
     choice <- index0 (choices response) ;;
     match msg_content (message choice) with
     | None => raise (Exn "AttributeError" "'NoneType' object has no attribute 'strip'")
     | Some content => ret (strip_fences content)
     end)
    (fun e => ret ("<p>Error converting Markdown to HTML: " +:+ exn_str e +:+ "</p>")).

Definition send_html_email (to_address subject html_content : string) : M unit :=
  try_except
    (execute (ReqSend to_address subject html_content)
             (fun h => messages_send svc h to_address subject html_content))
    (fun e => ret tt).

(** *** Main *)

(** [for i, email in enumerate(unread_emails, start=1): ...] *)
Fixpoint classify_all (unread_emails : list email)
    (classified_emails : list classified_email) : M (list classified_email) :=
  match unread_emails with
  | [] => ret classified_emails
  | email :: unread_emails' =>
      let subject := email_subject email in
      let snippet := email_snippet email in
      result <- classify_and_summarize_email subject snippet ;;
      classify_all unread_emails'
        (classified_emails
           ++ [ClassifiedEmail (email_id email) subject snippet
                               (category result) (summary result)])
  end.

Definition main (fuel : nat) : M unit :=
  get_gmail_service ;;
  unread_emails <- get_unread_emails_past_24h fuel ;;
  match unread_emails with
  | [] => ret tt
  | _ :: _ =>
      classified_emails <- classify_all unread_emails [] ;;
      mark_non_important_as_read classified_emails ;;
      summary_md <- generate_executive_summary classified_emails ;;
      summary_html <- convert_md_to_html summary_md ;;
      date <- get_current_date_string ;;
      send_html_email SEND_TO_EMAIL ("Daily Recap: " +:+ date) summary_html
  end.

End Script.

(** ** Notions used by the statements *)

(** The three values of the enumeration offered to the model. *)
Definition enumerated (v : pyval) : bool :=
  py_eq_str v "newsletter" || py_eq_str v "notification" || py_eq_str v "important".


(** The answer the classification request gets in world [w]. *)
Definition classification_answer (svc : services) (subject snippet : string) (w : world)
    : result chat_response :=
  chat_completions_create svc (trace w) OPENAI_MODEL_CLASSIFY
    (classification_messages subject snippet) true.

(** [category != "important"] *)
Definition non_important (e : classified_email) : bool :=
  negb (py_eq_str (c_category e) "important").

(** The modify requests the mutator owes: one per record that is not
    ["important"], in the order of the list. *)
Definition modify_requests (classified_emails : list classified_email) : list request :=
  map (fun e => ReqModify (c_id e)) (List.filter non_important classified_emails).

(** The requests of the fetch stage. *)
Definition fetch_request (req : request) : bool :=
  match req with
  | ReqList _ _ | ReqGet _ => true
  | _ => false
  end.

(** The requests main may issue up to and including the fetch stage. *)
Definition before_classification (req : request) : bool :=
  match req with
  | ReqBuild | ReqList _ _ | ReqGet _ => true
  | _ => false
  end.

(** Some header of the message is named Subject, in any letter case. *)
Definition has_subject_header (msg_detail : msg_detail) : bool :=
  existsb (fun h => String.eqb (PyStr.lower (h_name h)) "subject") (detail_headers msg_detail).

(** A record built from the detail that some get request for its id
    returned. *)
Definition fetched (svc : services) (r : email) : Prop :=
  exists h msg_detail,
    messages_get svc h (email_id r) = Ok msg_detail
    /\ r = email_of_detail (email_id r) msg_detail.

(** What a run of the fetch loops guarantees, from world [w] and the
    records [acc] gathered so far: only fetch requests are issued, the
    mailbox is not touched, and unless the run raised, every request was
    answered; the result extends [acc] by fetched records. *)
Definition fetch_post (svc : services) (w : world) (acc : list email)
    (r : outcome (list email) * world) : Prop :=
  exists evs,
    trace (snd r) = trace w ++ evs
    /\ unread (snd r) = unread w
    /\ Forall (fun ev => fetch_request (ev_req ev) = true) evs
    /\ match fst r with
       | Done l =>
           Forall (fun ev => ev_ok ev = true) evs
           /\ exists new, l = acc ++ new /\ Forall (fetched svc) new
       | Raised _ => exists ev, ev ∈ evs /\ ev_ok ev = false
       | OutOfFuel => Forall (fun ev => ev_ok ev = true) evs
       end.

(** No character of the text is a line feed: the text is one line. *)
Fixpoint single_line (s : string) : bool :=
  match s with
  | EmptyString => true
  | String c s' => negb (Ascii.eqb c "010"%char) && single_line s'
  end.

(** A closed form of [append_group], used in the proofs: what it appends
    to [lines]. *)
Definition group_block (header : string) (group : list classified_email) : list pyval :=
  match group with
  | [] => []
  | _ :: _ => PyString header :: concat (imap (fun k e => entry_lines (S k) e) group)
  end.

(** A closed form of [summary_lines], used in the proofs. It is written
    with the helpers of the code; the layout in the words of the
    specification is [DigestSpec.digest]. *)
Definition digest_layout (date : string) (classified_emails : list classified_email)
    : list pyval :=
  [PyString ("**Executive Summary for " +:+ date +:+ "**" +:+ PyStr.nl)]
  ++ group_block ("### Important Emails" +:+ PyStr.nl)
       (List.filter (has_category "important") classified_emails)
  ++ group_block ("### Notifications" +:+ PyStr.nl)
       (List.filter (has_category "notification") classified_emails)
  ++ group_block ("### Newsletters" +:+ PyStr.nl)
       (List.filter (has_category "newsletter") classified_emails)
  ++ [PyString (PyStr.nl +:+ "**End of Summary**")].

(** The answer of the conversion request in world [w]. *)
Definition conversion_answer (svc : services) (markdown_text : string) (w : world)
    : result chat_response :=
  chat_completions_create svc (trace w) OPENAI_MODEL_SUMMARY
    [("user", "Convert the following Markdown to HTML." +:+ PyStr.nl +:+ PyStr.nl
              +:+ markdown_text)]
    false.

(** ** Sample services and data *)

Module Sample.

(** Services that answer every request of a kind in the same way. *)
Definition constant (list_answer : option string -> result list_response)
    (get_answer : string -> result msg_detail) (modify_answer : string -> result unit)
    (chat_answer : bool -> result chat_response) : services :=
  Services (fun _ => Ok tt)
           (fun _ _ page_token => list_answer page_token)
           (fun _ id => get_answer id)
           (fun _ id => modify_answer id)
           (fun _ _ _ _ => Ok tt)
           (fun _ _ _ functions => chat_answer functions)
           (fun _ => "January 01, 2025").

Definition empty_page : result list_response := Ok (ListResponse None None).

Definition plain_detail : result msg_detail :=
  Ok (MsgDetail (Some "preview") (Some (Payload (Some [Header "Subject" "Offer"])))).

(** An answer whose function call carries the given decoded arguments. *)
Definition function_answer (arguments : result pyval) : result chat_response :=
  Ok (ChatResponse
        [Choice (ChatMessage None (Some (FunctionCall "classify_and_summarize" arguments)))]).

(** An answer with text only. *)
Definition text_answer (content : string) : result chat_response :=
  Ok (ChatResponse [Choice (ChatMessage (Some content) None)]).

(** The model answers with a category that is not in the enumeration. *)
Definition spam_arguments : pyval :=
  PyDict [("category", PyString "spam"); ("summary", PyString "Buy now")].

Definition spam_svc : services :=
  constant (fun _ => empty_page) (fun _ => plain_detail) (fun _ => Ok tt)
           (fun _ => function_answer (Ok spam_arguments)).

(** The model answers with an object that has neither key. *)
Definition empty_object_svc : services :=
  constant (fun _ => empty_page) (fun _ => plain_detail) (fun _ => Ok tt)
           (fun _ => function_answer (Ok (PyDict []))).


Definition one_message_page : result list_response :=
  Ok (ListResponse (Some [MsgRef "m1"]) None).

Definition newsletter_arguments : pyval :=
  PyDict [("category", PyString "newsletter"); ("summary", PyString "Weekly offers")].

Definition fenced_html : string :=
  "```html" +:+ PyStr.nl +:+ "<p>Recap</p>" +:+ PyStr.nl +:+ "```".

(** One unread message, classified as a newsletter; the provider refuses
    the modify request. *)
Definition failing_modify_svc : services :=
  constant (fun _ => one_message_page) (fun _ => plain_detail)
           (fun _ => Err (Exn "HttpError" "503 Service Unavailable"))
           (fun functions => if functions then function_answer (Ok newsletter_arguments)
                             else text_answer fenced_html).

(** The first page lists ["m1"] and names a second page; the request for
    the second page raises. *)
Definition second_page_fails_svc : services :=
  constant (fun page_token =>
              match page_token with
              | None => Ok (ListResponse (Some [MsgRef "m1"]) (Some "p2"))
              | Some _ => Err (Exn "HttpError" "500 Internal Server Error")
              end)
           (fun _ => plain_detail) (fun _ => Ok tt)
           (fun _ => function_answer (Ok newsletter_arguments)).

(** One unread message whose detail has headers, none of them Subject. *)
Definition no_subject_svc : services :=
  constant (fun _ => one_message_page)
           (fun _ => Ok (MsgDetail (Some "preview")
                                   (Some (Payload (Some [Header "From" "a@example.org"])))))
           (fun _ => Ok tt)
           (fun _ => function_answer (Ok newsletter_arguments)).

(** One unread message; the model answers with the category ["spam"]. *)
Definition spam_run_svc : services :=
  constant (fun _ => one_message_page) (fun _ => plain_detail) (fun _ => Ok tt)
           (fun functions => if functions then function_answer (Ok spam_arguments)
                             else text_answer fenced_html).

(** A conversion answer of three lines of markup, without code fences. *)
Definition unfenced_html : string :=
  "<p>One</p>" +:+ PyStr.nl +:+ "<p>Two</p>" +:+ PyStr.nl +:+ "<p>Three</p>".

Definition unfenced_svc : services :=
  constant (fun _ => one_message_page) (fun _ => plain_detail) (fun _ => Ok tt)
           (fun functions => if functions then function_answer (Ok newsletter_arguments)
                             else text_answer unfenced_html).

Definition spam_email : classified_email :=
  ClassifiedEmail "m1" "Offer" "preview" (PyString "spam") (PyString "Buy now").

Definition important_email : classified_email :=
  ClassifiedEmail "m0" "Invoice" "due on Friday" (PyString "important")
                  (PyString "Pay the invoice.").

Definition w0 : world := World ∅ [].

(** A mailbox in which the message ["m1"] is unread. *)
Definition w1 : world := World {[ "m1" ]} [].

End Sample.

(** ** Notions used by the further properties *)

(** The [messages] of a conversion request. *)
Definition conversion_messages (markdown_text : string) : list (string * string) :=
  [("user", "Convert the following Markdown to HTML." +:+ PyStr.nl +:+ PyStr.nl
            +:+ markdown_text)].

(** The classification request for a fetched record. *)
Definition classification_request (e : email) : request :=
  ReqChat OPENAI_MODEL_CLASSIFY
          (classification_messages (email_subject e) (email_snippet e)) true.

(** A classified record carries the id, subject and snippet of the fetched
    record it was made from. *)
Definition classified_from (e : email) (c : classified_email) : Prop :=
  c_id c = email_id e /\ c_subject c = email_subject e /\ c_snippet c = email_snippet e.

(** Whether a service answered. *)
Definition answered {A} (r : result A) : bool :=
  match r with
  | Ok _ => true
  | Err _ => false
  end.

Definition is_modify (req : request) : bool :=
  match req with
  | ReqModify _ => true
  | _ => false
  end.

(** The tail of a run of [main] that reaches the reporter's requests: one
    conversion request, then one send request to the fixed address. *)
Definition report_requests (evs : list event) : Prop :=
  exists markdown_text date html_content ok_convert ok_send,
    evs = [ Event (ReqChat OPENAI_MODEL_SUMMARY (conversion_messages markdown_text) false)
                  ok_convert;
            Event (ReqSend SEND_TO_EMAIL ("Daily Recap: " +:+ date) html_content) ok_send ].

(** The ids of the get requests of a trace, in order. *)
Definition get_ids (evs : list event) : list string :=
  flat_map (fun ev => match ev_req ev with ReqGet id => [id] | _ => [] end) evs.

(** The ids of the modify requests of a trace that were answered. *)
Definition modified_ids (evs : list event) : list string :=
  flat_map (fun ev => match ev_req ev with
                      | ReqModify id => if ev_ok ev then [id] else []
                      | _ => []
                      end) evs.

(** A list request as the fetcher may send it: the fixed query, and a page
    token that is absent or not empty. *)
Definition well_formed_list_request (req : request) : Prop :=
  match req with
  | ReqList q page_token =>
      q = "is:unread newer_than:1d" /\ page_token <> Some ""
  | _ => True
  end.

#[global] Instance request_eq_dec : EqDecision request.
Proof. solve_decision. Defined.

#[global] Instance event_eq_dec : EqDecision event.
Proof. solve_decision. Defined.

(** A chat request that offers the classification function. *)
Definition is_classification (req : request) : bool :=
  match req with
  | ReqChat _ _ true => true
  | _ => false
  end.

(** The summary of the record is a [str]. *)
Definition summary_is_str (c : classified_email) : bool :=
  match c_summary c with
  | PyString _ => true
  | _ => false
  end.

(** The records the digest lists: those whose category is one of the
    three group names. *)
Definition listed (c : classified_email) : bool := enumerated (c_category c).

(** Every listed record has a [str] for a summary. *)
Definition summaries_ok (classified_emails : list classified_email) : bool :=
  forallb (fun c => implb (listed c) (summary_is_str c)) classified_emails.

(** What the body of the [try] in [convert_md_to_html] reads from the
    answer of the request: the text of the first choice, or the exception
    raised on the way to it. *)
Definition conversion_content (answer : result chat_response) : result string :=
  match answer with
  | Err e => Err e
  | Ok (ChatResponse []) => Err (Exn "IndexError" "list index out of range")
  | Ok (ChatResponse (c :: _)) =>
      match msg_content (message c) with
      | Some content => Ok content
      | None => Err (Exn "AttributeError" "'NoneType' object has no attribute 'strip'")
      end
  end.

(** The decoded arguments of the answer, when it has a function call whose
    arguments decode to an object. *)
Definition answer_arguments (answer : result chat_response) : option (list (string * pyval)) :=
  match answer with
  | Ok (ChatResponse (c :: _)) =>
      match msg_function_call (message c) with
      | Some fc =>
          match fc_arguments fc with
          | Ok (PyDict items) => Some items
          | _ => None
          end
      | None => None
      end
  | _ => None
  end.

(** ** The authenticator in detail *)

(** [get_gmail_service] step by step, over the token file and the three
    library calls it makes. The token file, when it exists, holds a
    credential that an earlier run has dumped; reading and writing it do
    not fail. *)
Module Authenticator.

(** What the script reads of a credential: [creds.valid], [creds.expired]
    and [creds.refresh_token]; [cred_token] tells credentials apart. *)
Record credentials := Credentials {
  cred_token : string;
  cred_valid : bool;
  cred_expired : bool;
  cred_refresh_token : option string;
}.

(** The service object, known by the credential it was built with. *)
Record service := Service { service_credentials : credentials }.

(** The library calls: [creds.refresh(Request())], which changes the
    credential in place (the answer is the credential afterwards);
    [InstalledAppFlow.from_client_secrets_file(...)] followed by
    [run_local_server(port=0)]; [build("gmail", "v1", credentials=creds)]. *)
Record environment := Environment {
  refresh : credentials -> result credentials;
  run_flow : result credentials;
  build : credentials -> result unit;
}.

(** The steps of a run, each call with whether it returned. *)
Inductive step :=
| Refresh (creds : credentials) (ok : bool)
| RunFlow (ok : bool)
| Dump (creds : credentials)
| Build (creds : credentials) (ok : bool).

(** The file at [TOKEN_PATH] ([None]: no file) and the steps taken. *)
Record state := State { token_file : option credentials; steps : list step }.

(** [bool(creds.refresh_token)] *)
Definition has_refresh_token (creds : credentials) : bool :=
  match cred_refresh_token creds with
  | Some t => PyStr.truthy t
  | None => false
  end.

(** Step 4: build the service. *)
Definition build_service (env : environment) (creds : credentials) (st : state)
    : result service * state :=
  match build env creds with
  | Ok _ => (Ok (Service creds), State (token_file st) (steps st ++ [Build creds true]))
  | Err e => (Err e, State (token_file st) (steps st ++ [Build creds false]))
  end.

(** Step 3: save the credential, then go on to step 4. *)
Definition save_and_build (env : environment) (creds : credentials) (st : state)
    : result service * state :=
  build_service env creds (State (Some creds) (steps st ++ [Dump creds])).

(** Step 2, the [else] branch: the OAuth flow. *)
Definition login (env : environment) (st : state) : result service * state :=
  match run_flow env with
  | Ok creds => save_and_build env creds (State (token_file st) (steps st ++ [RunFlow true]))
  | Err e => (Err e, State (token_file st) (steps st ++ [RunFlow false]))
  end.

Definition get_gmail_service (env : environment) (st : state) : result service * state :=
  match token_file st with
  | Some creds =>
      if cred_valid creds then build_service env creds st
      else if cred_expired creds && has_refresh_token creds then
        match refresh env creds with
        | Ok creds' =>
            save_and_build env creds'
              (State (token_file st) (steps st ++ [Refresh creds true]))
        | Err e => (Err e, State (token_file st) (steps st ++ [Refresh creds false]))
        end
      else login env st
  | None => login env st
  end.

End Authenticator.

(** ** Further sample services and data *)

Module Scenario.

(** Two pages of one message each. *)
Definition two_pages_svc : services :=
  Sample.constant
    (fun page_token =>
       match page_token with
       | None => Ok (ListResponse (Some [MsgRef "m1"]) (Some "p2"))
       | Some _ => Ok (ListResponse (Some [MsgRef "m2"]) None)
       end)
    (fun _ => Sample.plain_detail) (fun _ => Ok tt)
    (fun _ => Sample.function_answer (Ok Sample.newsletter_arguments)).

(** A detail with two subject headers, the first in capitals. *)
Definition two_subjects : msg_detail :=
  MsgDetail (Some "preview")
            (Some (Payload (Some [ Header "From" "a@example.org";
                                   Header "SUBJECT" "Hello";
                                   Header "Subject" "Other" ]))).

(** One unread message; the model answers with a number for a summary. *)
Definition number_summary_svc : services :=
  Sample.constant
    (fun _ => Sample.one_message_page) (fun _ => Sample.plain_detail) (fun _ => Ok tt)
    (fun functions =>
       if functions
       then Sample.function_answer
              (Ok (PyDict [("category", PyString "newsletter"); ("summary", PyInt 5)]))
       else Sample.text_answer Sample.fenced_html).

Definition newsletter_email : classified_email :=
  ClassifiedEmail "m2" "Weekly" "this week" (PyString "newsletter") (PyString "Offers.").

(** A cached credential that has expired and can be refreshed, and what
    the refresh makes of it. *)
Definition stale_credentials : Authenticator.credentials :=
  Authenticator.Credentials "t0" false true (Some "r0").

Definition refreshed_credentials : Authenticator.credentials :=
  Authenticator.Credentials "t1" true false (Some "r0").

Definition auth_env : Authenticator.environment :=
  Authenticator.Environment
    (fun _ => Ok refreshed_credentials)
    (Err (Exn "FileNotFoundError" "secrets/credentials.json"))
    (fun _ => Ok tt).

Definition expired_cache : Authenticator.state :=
  Authenticator.State (Some stale_credentials) [].

Definition valid_cache : Authenticator.state :=
  Authenticator.State (Some refreshed_credentials) [].

(** The record the classifier makes of that answer. *)
Definition number_email : classified_email :=
  ClassifiedEmail "m1" "Offer" "preview" (PyString "newsletter") (PyInt 5).

Definition contract_email : classified_email :=
  ClassifiedEmail "m3" "Contract" "please sign" (PyString "important")
                  (PyString "Sign by Monday.").

(** A newsletter, then two important records; every summary is a [str]. *)
Definition three_records : list classified_email :=
  [newsletter_email; Sample.important_email; contract_email].

End Scenario.

(** ** The digest in the words of the specification *)

(** A description of the digest that uses none of the helpers of the code:
    which records a group holds, how its entries are numbered, and in which
    order the groups come. *)
Module DigestSpec.

(** [group_of name records group]: [group] holds, in the order of
    [records], the subject and the summary text of every record whose
    category is the string [name], and nothing else. *)
Inductive group_of (name : string)
  : list classified_email -> list (string * string) -> Prop :=
| group_nil :
    group_of name [] []
| group_take c text records group :
    c_category c = PyString name ->
    c_summary c = PyString text ->
    group_of name records group ->
    group_of name (c :: records) ((c_subject c, text) :: group)
| group_skip c records group :
    c_category c <> PyString name ->
    group_of name records group ->
    group_of name (c :: records) group.

(** The lines of the entries of a group, the first one carrying the number
    [n] and each next one the next number: a line with the number and the
    subject, the summary, an empty line. *)
Fixpoint numbered (n : nat) (group : list (string * string)) : list string :=
  match group with
  | [] => []
  | (subject, text) :: group' =>
      ("**" +:+ PyStr.of_nat n +:+ ".** **Subject:** " +:+ subject)
      :: text :: "" :: numbered (S n) group'
  end.

(** A group that is not empty: its header, then its entries numbered from
    1. An empty group: nothing. *)
Definition block (header : string) (group : list (string * string)) : list string :=
  match group with
  | [] => []
  | _ :: _ => (header +:+ PyStr.nl) :: numbered 1 group
  end.

(** The title; the important, the notification and the newsletter group,
    in this order; the closing line; all joined by line feeds. *)
Definition digest (date : string) (important notification newsletter : list (string * string))
    : string :=
  PyStr.join PyStr.nl
    (("**Executive Summary for " +:+ date +:+ "**" +:+ PyStr.nl)
     :: block "### Important Emails" important
     ++ block "### Notifications" notification
     ++ block "### Newsletters" newsletter
     ++ [PyStr.nl +:+ "**End of Summary**"]).

(** The record is in one of the three groups. *)
Definition grouped (c : classified_email) : Prop :=
  c_category c = PyString "important"
  \/ c_category c = PyString "notification"
  \/ c_category c = PyString "newsletter".

End DigestSpec.

(** * Theorems *)

(** ** Running the monad *)

Lemma bind_done {A B} (m : M A) (k : A -> M B) w a w' :
  m w = (Done a, w') -> bind m k w = k a w'.
Proof. intros H; unfold bind; rewrite H; reflexivity. Qed.

Lemma bind_raised {A B} (m : M A) (k : A -> M B) w e w' :
  m w = (Raised e, w') -> bind m k w = (Raised e, w').
Proof. intros H; unfold bind; rewrite H; reflexivity. Qed.

Lemma bind_out_of_fuel {A B} (m : M A) (k : A -> M B) w w' :
  m w = (OutOfFuel, w') -> bind m k w = (OutOfFuel, w').
Proof. intros H; unfold bind; rewrite H; reflexivity. Qed.

Lemma try_except_done {A} (body : M A) handler w a w' :
  body w = (Done a, w') -> try_except body handler w = (Done a, w').
Proof. intros H; unfold try_except; rewrite H; reflexivity. Qed.

Lemma try_except_raised {A} (body : M A) handler w e w' :
  body w = (Raised e, w') -> try_except body handler w = handler e w'.
Proof. intros H; unfold try_except; rewrite H; reflexivity. Qed.

(** ** The classifier *)

Section Classifier.

Variable svc : services.
Variables subject snippet : string.
Variable w : world.

(** The classifier always returns; it never raises and never loops. *)
Lemma classify_returns :
  exists r w', classify_and_summarize_email svc subject snippet w = (Done r, w').
Proof.
  unfold classify_and_summarize_email, try_except, bind, execute.
  destruct (chat_completions_create _ _ _ _ _) as [[[|[[content [fc|]]] rest]]|e];
    simpl; eauto.
  destruct fc as [name [[]|e]]; simpl; eauto.
Qed.

Lemma classify_well_formed c rest fc items :
  classification_answer svc subject snippet w = Ok (ChatResponse (c :: rest)) ->
  msg_function_call (message c) = Some fc ->
  fc_arguments fc = Ok (PyDict items) ->
  exists w',
    classify_and_summarize_email svc subject snippet w
    = (Done (Classification (dict_get items "category" (PyString "important"))
                            (dict_get items "summary" (PyString ""))), w').
Proof.
  unfold classification_answer. intros Hanswer Hcall Hargs.
  unfold classify_and_summarize_email, try_except, bind, execute.
  rewrite Hanswer; simpl. rewrite Hcall, Hargs; simpl. eauto.
Qed.

End Classifier.

Lemma dict_get_absent items key default :
  dict_has items key = false -> dict_get items key default = default.
Proof.
  induction items as [|[k v] items IH]; simpl; [reflexivity|].
  destruct (String.eqb k key); simpl; [discriminate | exact IH].
Qed.


(** C10: when the arguments of the function call decode to an object, the
    classifier returns the object's ["category"] and ["summary"]; a missing
    ["summary"] gives the empty string and a missing ["category"] gives
    ["important"]. *)
Theorem classify_missing_keys svc subject snippet w c rest fc items :
  classification_answer svc subject snippet w = Ok (ChatResponse (c :: rest)) ->
  msg_function_call (message c) = Some fc ->
  fc_arguments fc = Ok (PyDict items) ->
  exists r w',
    classify_and_summarize_email svc subject snippet w = (Done r, w')
    /\ (dict_has items "summary" = false -> summary r = PyString "")
    /\ (dict_has items "category" = false -> category r = PyString "important").
Proof.
  intros Hanswer Hcall Hargs.
  destruct (classify_well_formed svc subject snippet w c rest fc items Hanswer Hcall Hargs)
    as [w' Hrun].
  eexists; exists w'; split; [exact Hrun|]; simpl.
  split; intro Habsent; apply dict_get_absent; exact Habsent.
Qed.

Lemma classify_missing_keys_witness :
  exists r w',
    classify_and_summarize_email Sample.empty_object_svc "Offer" "preview" Sample.w0
    = (Done r, w')
    /\ summary r = PyString ""
    /\ category r = PyString "important".
Proof.
  destruct (classify_missing_keys Sample.empty_object_svc "Offer" "preview" Sample.w0
              _ _ _ [] eq_refl eq_refl eq_refl)
    as (r & w' & Hrun & Hsummary & Hcategory).
  exists r, w'. split; [exact Hrun|].
  split; [apply Hsummary | apply Hcategory]; reflexivity.
Defined.



(** C2, at the failing input: the answer carries the category ["spam"], and
    the classifier hands it on as it is, a value outside the enumeration. *)
Theorem classify_unvalidated_category :
  exists w',
    classify_and_summarize_email Sample.spam_svc "Offer" "preview" Sample.w0
    = (Done (Classification (PyString "spam") (PyString "Buy now")), w')
    /\ enumerated (PyString "spam") = false.
Proof. eexists; split; reflexivity. Qed.

(** ** The mutator *)

(** One pass of the loop body for a record that is not ["important"]. *)
Lemma modify_step svc id w :
  exists ok : bool,
    try_except (execute_modify id (fun h => messages_modify svc h id)) (fun _ => ret tt) w
    = (Done tt, World (if ok then unread w ∖ {[ id ]} else unread w)
                      (trace w ++ [Event (ReqModify id) ok])).
Proof.
  unfold try_except, execute_modify, ret.
  destruct (messages_modify svc (trace w) id) as [[]|e]; [exists true | exists false];
    reflexivity.
Qed.

Lemma mark_run svc classified_emails : forall w,
  exists evs w',
    mark_non_important_as_read svc classified_emails w = (Done tt, w')
    /\ trace w' = trace w ++ evs
    /\ map ev_req evs = modify_requests classified_emails
    /\ (forall id, id ∈ unread w' <-> id ∈ unread w /\ Event (ReqModify id) true ∉ evs).
Proof.
  induction classified_emails as [|e rest IH]; intros w.
  - exists [], w. simpl. rewrite app_nil_r.
    split; [reflexivity|]. split; [reflexivity|]. split; [reflexivity|].
    intros id. split; [intros Hin; split; [exact Hin | apply not_elem_of_nil] | tauto].
  - cbn [mark_non_important_as_read]. unfold modify_requests. cbn [List.filter].
    fold (non_important e). destruct (non_important e) eqn:Hcat.
    + destruct (modify_step svc (c_id e) w) as [ok Hstep].
      rewrite (bind_done _ _ _ _ _ Hstep).
      destruct (IH (World (if ok then unread w ∖ {[ c_id e ]} else unread w)
                          (trace w ++ [Event (ReqModify (c_id e)) ok])))
        as (evs & w' & Hrun & Htrace & Hreqs & Hunread).
      exists (Event (ReqModify (c_id e)) ok :: evs), w'.
      split; [exact Hrun|]. split; [|split].
      * rewrite Htrace. cbn [trace]. rewrite <- app_assoc. reflexivity.
      * cbn [map ev_req]. f_equal. exact Hreqs.
      * intros id. rewrite Hunread. cbn [unread]. rewrite not_elem_of_cons.
        destruct ok.
        -- rewrite elem_of_difference, elem_of_singleton.
           split.
           ++ intros [[Hin Hne] Hnot]. repeat split; [exact Hin| |exact Hnot].
              intros Heq. apply Hne. congruence.
           ++ intros [Hin [Hne Hnot]]. repeat split; [exact Hin| |exact Hnot].
              intros Heq. apply Hne. congruence.
        -- split.
           ++ intros [Hin Hnot]. repeat split; [exact Hin|discriminate|exact Hnot].
           ++ intros [Hin [_ Hnot]]. split; assumption.
    + rewrite (bind_done _ _ w tt w eq_refl).
      destruct (IH w) as (evs & w' & Hrun & Htrace & Hreqs & Hunread).
      exists evs, w'. split; [exact Hrun|]. split; [exact Htrace|]. split; [exact Hreqs|].
      exact Hunread.
Qed.

Lemma modify_requests_elem id classified_emails :
  ReqModify id ∈ modify_requests classified_emails ->
  exists e, e ∈ classified_emails /\ c_id e = id /\ non_important e = true.
Proof.
  unfold modify_requests. rewrite list_elem_of_fmap.
  intros (e & Heq & Hin). exists e.
  apply list_elem_of_In, filter_In in Hin. destruct Hin as [Hin Hcat].
  split; [apply list_elem_of_In; exact Hin|]. split; [congruence | exact Hcat].
Qed.

(** C1, as the code has it: the mutator always returns; the modify requests
    it issues are exactly those of the records whose category is not
    ["important"], one each and in order; a message is unread afterwards
    exactly when it was unread before and no modify request for it
    succeeded; so a record categorized ["important"] is never passed to a
    modify request and, when no other record with its id is categorized
    otherwise, keeps its unread flag. *)
Theorem mark_non_important_as_read_effect svc classified_emails w :
  exists evs w',
    mark_non_important_as_read svc classified_emails w = (Done tt, w')
    /\ trace w' = trace w ++ evs
    /\ map ev_req evs = modify_requests classified_emails
    /\ (forall id, id ∈ unread w' <-> id ∈ unread w /\ Event (ReqModify id) true ∉ evs)
    /\ (forall e, e ∈ classified_emails ->
          py_eq_str (c_category e) "important" = true ->
          (forall e', e' ∈ classified_emails -> c_id e' = c_id e ->
                      py_eq_str (c_category e') "important" = true) ->
          (c_id e ∈ unread w' <-> c_id e ∈ unread w)).
Proof.
  destruct (mark_run svc classified_emails w) as (evs & w' & Hrun & Htrace & Hreqs & Hunread).
  exists evs, w'. split; [exact Hrun|]. split; [exact Htrace|]. split; [exact Hreqs|].
  split; [exact Hunread|].
  intros e Hin Hcat Hsame. split; [intros Hunr; apply Hunread in Hunr; tauto|].
  intros Hunr. apply Hunread. split; [exact Hunr|].
  intros Hev.
  assert (Hreq : ReqModify (c_id e) ∈ map ev_req evs).
  { apply list_elem_of_fmap. exists (Event (ReqModify (c_id e)) true).
    split; [reflexivity | exact Hev]. }
  rewrite Hreqs in Hreq.
  destruct (modify_requests_elem _ _ Hreq) as (e' & Hin' & Hid & Hcat').
  unfold non_important in Hcat'. rewrite (Hsame e' Hin' Hid) in Hcat'. discriminate.
Qed.

Lemma mark_non_important_as_read_effect_witness :
  exists evs w',
    mark_non_important_as_read Sample.spam_run_svc
      [Sample.important_email; Sample.spam_email] (World {[ "m0"; "m1" ]} [])
    = (Done tt, w')
    /\ map ev_req evs = [ReqModify "m1"]
    /\ "m0" ∈ unread w'.
Proof.
  destruct (mark_non_important_as_read_effect Sample.spam_run_svc
              [Sample.important_email; Sample.spam_email] (World {[ "m0"; "m1" ]} []))
    as (evs & w' & Hrun & _ & Hreqs & _ & Himportant).
  exists evs, w'. split; [exact Hrun|]. split; [exact Hreqs|].
  apply (Himportant Sample.important_email).
  - apply list_elem_of_here.
  - reflexivity.
  - intros e' Hin Hid. apply elem_of_cons in Hin. destruct Hin as [->|Hin].
    + reflexivity.
    + apply elem_of_cons in Hin. destruct Hin as [->|Hin].
      * discriminate Hid.
      * apply not_elem_of_nil in Hin. destruct Hin.
  - cbn. set_solver.
Defined.

(** C1, the counterexample: one unread message is fetched and classified as
    a newsletter, the provider refuses the modify request, the run
    completes, and the message is still unread. *)
Lemma failed_modify_leaves_unread :
  fst (get_unread_emails_past_24h Sample.failing_modify_svc 1
         (World {[ "m1" ]} [Event ReqBuild true]))
  = Done [Email "m1" "Offer" "preview"]
  /\ fst (classify_all Sample.failing_modify_svc [Email "m1" "Offer" "preview"] [] Sample.w1)
     = Done [ClassifiedEmail "m1" "Offer" "preview"
                             (PyString "newsletter") (PyString "Weekly offers")]
  /\ py_eq_str (PyString "newsletter") "important" = false
  /\ fst (main Sample.failing_modify_svc 1 Sample.w1) = Done tt
  /\ Event (ReqModify "m1") false ∈ trace (snd (main Sample.failing_modify_svc 1 Sample.w1))
  /\ "m1" ∈ unread (snd (main Sample.failing_modify_svc 1 Sample.w1)).
Proof.
  do 4 (split; [reflexivity|]). split.
  - cbn. do 4 apply list_elem_of_further. apply list_elem_of_here.
  - cbn. set_solver.
Qed.

(** ** The fetcher *)

Section Fetcher.

Variable svc : services.

Lemma fetch_messages_post messages : forall acc w,
  fetch_post svc w acc (fetch_messages svc messages acc w).
Proof.
  induction messages as [|msg rest IH]; intros acc w; cbn [fetch_messages].
  - exists []. cbn. rewrite !app_nil_r.
    repeat split; try constructor. exists []. rewrite app_nil_r. split; constructor.
  - unfold bind at 1, execute at 1.
    destruct (messages_get svc (trace w) (ref_id msg)) as [d|e] eqn:Hget.
    + specialize (IH (acc ++ [email_of_detail (ref_id msg) d])
                     (World (unread w) (trace w ++ [Event (ReqGet (ref_id msg)) true]))).
      destruct IH as (evs & Htrace & Hunread & Hkind & Hout).
      exists (Event (ReqGet (ref_id msg)) true :: evs).
      split; [rewrite Htrace; cbn [trace]; rewrite <- app_assoc; reflexivity|].
      split; [exact Hunread|].
      split; [constructor; [reflexivity | exact Hkind]|].
      destruct (fst (fetch_messages svc rest _ _)) as [l|e|].
      * destruct Hout as (Hok & new & Hl & Hnew).
        split; [constructor; [reflexivity | exact Hok]|].
        exists (email_of_detail (ref_id msg) d :: new).
        split; [rewrite Hl, <- app_assoc; reflexivity|].
        constructor; [|exact Hnew].
        exists (trace w), d. split; [exact Hget | reflexivity].
      * destruct Hout as (ev & Hin & Hfail). exists ev.
        split; [apply list_elem_of_further; exact Hin | exact Hfail].
      * constructor; [reflexivity | exact Hout].
    + exists [Event (ReqGet (ref_id msg)) false]. cbn.
      repeat split; try (constructor; [reflexivity | constructor]).
      exists (Event (ReqGet (ref_id msg)) false). split; [apply list_elem_of_here | reflexivity].
Qed.

Lemma fetch_post_trans w acc w1 acc1 r :
  fetch_post svc w acc (Done acc1, w1) ->
  fetch_post svc w1 acc1 r ->
  fetch_post svc w acc r.
Proof.
  intros (evs1 & Htrace1 & Hunread1 & Hkind1 & Hok1 & new1 & Hacc1 & Hnew1)
         (evs2 & Htrace2 & Hunread2 & Hkind2 & Hout2).
  cbn [fst snd] in *.
  exists (evs1 ++ evs2).
  split; [rewrite Htrace2, Htrace1, <- app_assoc; reflexivity|].
  split; [congruence|].
  split; [apply Forall_app; split; assumption|].
  destruct (fst r) as [l|e|].
  - destruct Hout2 as (Hok2 & new2 & Hl & Hnew2).
    split; [apply Forall_app; split; assumption|].
    exists (new1 ++ new2).
    split; [rewrite Hl, Hacc1, <- app_assoc; reflexivity|].
    apply Forall_app; split; assumption.
  - destruct Hout2 as (ev & Hin & Hfail). exists ev.
    split; [apply elem_of_app; right; exact Hin | exact Hfail].
  - apply Forall_app; split; assumption.
Qed.

Lemma fetch_pages_post fuel : forall page_token acc w,
  fetch_post svc w acc (fetch_pages svc fuel page_token acc w).
Proof.
  induction fuel as [|fuel IH]; intros page_token acc w; cbn [fetch_pages].
  - exists []. cbn. rewrite app_nil_r. repeat split; constructor.
  - unfold bind at 1, execute at 1.
    destruct (messages_list svc (trace w) _ page_token) as [response|e].
    + set (ev := Event (ReqList "is:unread newer_than:1d" page_token) true).
      set (w1 := World (unread w) (trace w ++ [ev])).
      apply (fetch_post_trans w acc w1 acc).
      { exists [ev]. cbn.
        repeat split; try (constructor; [reflexivity | constructor]).
        exists []. rewrite app_nil_r. split; constructor. }
      pose proof (fetch_messages_post (default [] (lr_messages response)) acc w1) as Hmsgs.
      unfold bind.
      destruct (fetch_messages svc (default [] (lr_messages response)) acc w1)
        as [[acc2|e|] w2]; try exact Hmsgs.
      destruct (lr_nextPageToken response) as [t|]; [|exact Hmsgs].
      destruct (PyStr.truthy t); [|exact Hmsgs].
      apply (fetch_post_trans w1 acc w2 acc2 _ Hmsgs). apply IH.
    + exists [Event (ReqList "is:unread newer_than:1d" page_token) false]. cbn.
      repeat split; try (constructor; [reflexivity | constructor]).
      eexists. split; [apply list_elem_of_here | reflexivity].
Qed.

(** More fuel does not change a run that ended by itself. *)
Lemma fetch_pages_fuel fuel : forall page_token acc w fuel',
  fuel <= fuel' ->
  fst (fetch_pages svc fuel page_token acc w) <> OutOfFuel ->
  fetch_pages svc fuel' page_token acc w = fetch_pages svc fuel page_token acc w.
Proof.
  induction fuel as [|fuel IH]; intros page_token acc w fuel' Hle Hended.
  - exfalso. apply Hended. reflexivity.
  - destruct fuel' as [|fuel']; [lia|].
    cbn [fetch_pages] in *. unfold bind in *.
    destruct (execute _ _ w) as [[response|e|] w1]; try reflexivity.
    destruct (fetch_messages svc _ acc w1) as [[acc2|e|] w2]; try reflexivity.
    destruct (lr_nextPageToken response) as [t|]; [|reflexivity].
    destruct (PyStr.truthy t); [|reflexivity].
    apply IH; [lia | exact Hended].
Qed.

End Fetcher.

Lemma get_unread_snd svc fuel w :
  snd (get_unread_emails_past_24h svc fuel w) = snd (fetch_pages svc fuel None [] w).
Proof.
  unfold get_unread_emails_past_24h, try_except.
  destruct (fetch_pages svc fuel None [] w) as [[l|e|] w']; reflexivity.
Qed.

Lemma subject_or_default_nonempty subject : subject_or_default subject <> "".
Proof.
  destruct subject as [[|c s]|]; cbn; discriminate.
Qed.

Lemma find_subject_none headers :
  existsb (fun h => String.eqb (PyStr.lower (h_name h)) "subject") headers = false ->
  find_subject headers = None.
Proof.
  induction headers as [|h headers IH]; cbn [existsb find_subject]; [reflexivity|].
  destruct (String.eqb (PyStr.lower (h_name h)) "subject"); cbn; [discriminate | exact IH].
Qed.

(** C7: when a request of the fetch stage has raised, the fetcher returns
    the empty list, whatever it had gathered from earlier pages; it does
    so with any larger bound on the number of pages as well. *)
Theorem fetch_failure_returns_empty svc fuel w evs :
  trace (snd (get_unread_emails_past_24h svc fuel w)) = trace w ++ evs ->
  (exists ev, ev ∈ evs /\ ev_ok ev = false) ->
  forall fuel', fuel <= fuel' ->
    fst (get_unread_emails_past_24h svc fuel' w) = Done []
    /\ snd (get_unread_emails_past_24h svc fuel' w)
       = snd (get_unread_emails_past_24h svc fuel w).
Proof.
  intros Htrace (ev & Hin & Hfail) fuel' Hle.
  rewrite get_unread_snd in Htrace.
  destruct (fetch_pages_post svc fuel None [] w) as (evs' & Htrace' & _ & _ & Hout).
  rewrite Htrace in Htrace'. apply app_inv_head in Htrace'. subst evs'.
  assert (Hraised : exists e, fst (fetch_pages svc fuel None [] w) = Raised e).
  { destruct (fst (fetch_pages svc fuel None [] w)) as [l|e|].
    - destruct Hout as [Hok _]. rewrite Forall_forall in Hok.
      specialize (Hok ev Hin). congruence.
    - eauto.
    - rewrite Forall_forall in Hout. specialize (Hout ev Hin). congruence. }
  destruct Hraised as [e Hraised].
  assert (Hsame : fetch_pages svc fuel' None [] w = fetch_pages svc fuel None [] w).
  { apply fetch_pages_fuel; [exact Hle | rewrite Hraised; discriminate]. }
  unfold get_unread_emails_past_24h, try_except. rewrite Hsame.
  destruct (fetch_pages svc fuel None [] w) as [[l|e'|] w']; cbn in *;
    try discriminate.
  split; reflexivity.
Qed.

Lemma fetch_failure_returns_empty_witness :
  fst (get_unread_emails_past_24h Sample.second_page_fails_svc 3 Sample.w1) = Done []
  /\ snd (get_unread_emails_past_24h Sample.second_page_fails_svc 3 Sample.w1)
     = snd (get_unread_emails_past_24h Sample.second_page_fails_svc 2 Sample.w1).
Proof.
  apply (fetch_failure_returns_empty Sample.second_page_fails_svc 2 Sample.w1
           [ Event (ReqList "is:unread newer_than:1d" None) true;
             Event (ReqGet "m1") true;
             Event (ReqList "is:unread newer_than:1d" (Some "p2")) false ]).
  - reflexivity.
  - exists (Event (ReqList "is:unread newer_than:1d" (Some "p2")) false).
    split; [|reflexivity]. do 2 apply list_elem_of_further. apply list_elem_of_here.
  - lia.
Defined.

(** C9: every record the fetcher returns has a non-empty subject and was
    built from the detail a get request for its id returned; when that
    detail has no header named Subject, the subject is ["(No Subject)"]. *)
Theorem fetched_subject svc fuel w emails w' :
  get_unread_emails_past_24h svc fuel w = (Done emails, w') ->
  Forall (fun r => email_subject r <> ""
                   /\ exists h msg_detail,
                        messages_get svc h (email_id r) = Ok msg_detail
                        /\ r = email_of_detail (email_id r) msg_detail
                        /\ (has_subject_header msg_detail = false ->
                            email_subject r = "(No Subject)"))
         emails.
Proof.
  unfold get_unread_emails_past_24h, try_except. intros Hrun.
  destruct (fetch_pages_post svc fuel None [] w) as (evs & _ & _ & _ & Hout).
  destruct (fetch_pages svc fuel None [] w) as [[l|e|] w1]; cbn [fst] in Hout.
  - inversion Hrun; subst l w1. destruct Hout as (_ & new & Hl & Hnew).
    cbn in Hl. subst new. eapply Forall_impl; [exact Hnew|].
    intros r (h & d & Hget & Hr). split.
    + rewrite Hr. cbn. apply subject_or_default_nonempty.
    + exists h, d. split; [exact Hget|]. split; [exact Hr|].
      intros Hnone. rewrite Hr. cbn. unfold has_subject_header in Hnone.
      rewrite (find_subject_none _ Hnone). reflexivity.
  - inversion Hrun; subst. constructor.
  - discriminate.
Qed.

Lemma fetched_subject_witness :
  Forall (fun r => email_subject r <> ""
                   /\ exists h msg_detail,
                        messages_get Sample.no_subject_svc h (email_id r) = Ok msg_detail
                        /\ r = email_of_detail (email_id r) msg_detail
                        /\ (has_subject_header msg_detail = false ->
                            email_subject r = "(No Subject)"))
         [Email "m1" "(No Subject)" "preview"].
Proof.
  eapply (fetched_subject Sample.no_subject_svc 1 Sample.w1). reflexivity.
Defined.

(** ** Main *)

(** C5: when the authenticator has returned and the fetcher returns the
    empty list, [main] returns at once: the only requests of the run are
    those of the authenticator and of the fetcher (no chat request, no
    modify request, no send request), and the mailbox is as it was. *)
Theorem main_no_unread svc fuel w wa wb :
  get_gmail_service svc w = (Done tt, wa) ->
  get_unread_emails_past_24h svc fuel wa = (Done [], wb) ->
  main svc fuel w = (Done tt, wb)
  /\ unread wb = unread w
  /\ exists evs,
       trace wb = trace w ++ evs
       /\ Forall (fun ev => before_classification (ev_req ev) = true) evs.
Proof.
  intros Hauth Hfetch. split.
  - unfold main. rewrite (bind_done _ _ _ _ _ Hauth), (bind_done _ _ _ _ _ Hfetch).
    reflexivity.
  - unfold get_gmail_service, execute in Hauth.
    destruct (gmail_build svc (trace w)) as [[]|e]; [|discriminate].
    inversion Hauth; subst wa; clear Hauth.
    pose proof (get_unread_snd svc fuel
                  (World (unread w) (trace w ++ [Event ReqBuild true]))) as Hsnd.
    rewrite Hfetch in Hsnd. cbn [snd] in Hsnd.
    destruct (fetch_pages_post svc fuel None []
                (World (unread w) (trace w ++ [Event ReqBuild true])))
      as (evs & Htrace & Hunread & Hkind & _).
    rewrite <- Hsnd in Htrace, Hunread. cbn [trace unread] in Htrace, Hunread.
    split; [exact Hunread|].
    exists (Event ReqBuild true :: evs).
    split; [rewrite Htrace, <- app_assoc; reflexivity|].
    constructor; [reflexivity|].
    eapply Forall_impl; [exact Hkind|].
    intros ev Hev. cbn in Hev. destruct (ev_req ev); cbn in *; congruence.
Qed.

Lemma main_no_unread_witness :
  main Sample.spam_svc 1 Sample.w1
  = (Done tt, World {[ "m1" ]} [ Event ReqBuild true;
                                 Event (ReqList "is:unread newer_than:1d" None) true ]).
Proof.
  apply (main_no_unread Sample.spam_svc 1 Sample.w1
           (World {[ "m1" ]} [Event ReqBuild true])); reflexivity.
Defined.

(** ** The reporter: the digest *)

Lemma append_entries start group : forall lines,
  fold_left (fun lines ie => lines ++ entry_lines (fst ie) (snd ie))
            (enumerate start group) lines
  = lines ++ concat (imap (fun k e => entry_lines (start + k) e) group).
Proof.
  revert start. induction group as [|e group IH]; intros start lines.
  - cbn. rewrite app_nil_r. reflexivity.
  - cbn [enumerate fold_left fst snd imap concat].
    rewrite IH, <- app_assoc, Nat.add_0_r. do 2 f_equal.
    f_equal. apply imap_ext. intros k x _. cbn. f_equal. lia.
Qed.

Lemma append_group_block header group lines :
  append_group header group lines = lines ++ group_block header group.
Proof.
  unfold append_group, group_block. destruct group as [|e group].
  - rewrite app_nil_r. reflexivity.
  - rewrite append_entries, <- app_assoc. reflexivity.
Qed.

Lemma summary_lines_layout date classified_emails :
  summary_lines date classified_emails = digest_layout date classified_emails.
Proof.
  unfold summary_lines, digest_layout.
  rewrite !append_group_block, <- !app_assoc. reflexivity.
Qed.

Lemma all_str_app items1 items2 ss1 ss2 :
  all_str items1 = Ok ss1 -> all_str items2 = Ok ss2 ->
  all_str (items1 ++ items2) = Ok (ss1 ++ ss2).
Proof.
  revert ss1. induction items1 as [|v items1 IH]; intros ss1 H1 H2; cbn in *.
  - inversion H1; subst. exact H2.
  - destruct v; try discriminate.
    destruct (all_str items1) as [ss|e]; [|discriminate].
    inversion H1; subst. rewrite (IH ss eq_refl H2). reflexivity.
Qed.

Lemma all_str_cons s items ss :
  all_str items = Ok ss -> all_str (PyString s :: items) = Ok (s :: ss).
Proof. intros H. cbn [all_str]. rewrite H. reflexivity. Qed.

Lemma all_str_entries (f : nat -> classified_email -> list pyval) group :
  (forall k e, e ∈ group -> exists ss, all_str (f k e) = Ok ss) ->
  exists ss, all_str (concat (imap f group)) = Ok ss.
Proof.
  revert f. induction group as [|e group IH]; intros f Hf; cbn [imap concat].
  - exists []. reflexivity.
  - destruct (Hf 0 e) as [ss1 H1]; [apply list_elem_of_here|].
    destruct (IH (f ∘ S)) as [ss2 H2].
    { intros k e' Hin. apply Hf. apply list_elem_of_further. exact Hin. }
    exists (ss1 ++ ss2). apply all_str_app; assumption.
Qed.

Lemma all_str_group header group :
  Forall (fun e => exists s, c_summary e = PyString s) group ->
  exists ss, all_str (group_block header group) = Ok ss.
Proof.
  intros Hstr. unfold group_block. destruct group as [|e group]; [exists []; reflexivity|].
  destruct (all_str_entries (fun k e => entry_lines (S k) e) (e :: group)) as [ss Hss].
  { intros k e' Hin. rewrite Forall_forall in Hstr. destruct (Hstr e' Hin) as [s Hs].
    unfold entry_lines. rewrite Hs. cbn. eauto. }
  exists (header :: ss). apply all_str_cons. exact Hss.
Qed.

(** When every summary is a [str], the digest is produced. *)
Lemma generate_executive_summary_returns svc classified_emails w :
  Forall (fun e => exists s, c_summary e = PyString s) classified_emails ->
  exists text, generate_executive_summary svc classified_emails w = (Done text, w).
Proof.
  intros Hstr.
  assert (Hsub : forall name,
             Forall (fun e => exists s, c_summary e = PyString s)
                    (List.filter (has_category name) classified_emails)).
  { intros name. rewrite Forall_forall in *. intros e Hin. apply Hstr.
    apply list_elem_of_In, filter_In in Hin. apply list_elem_of_In. tauto. }
  unfold generate_executive_summary, get_current_date_string, bind.
  rewrite summary_lines_layout. unfold digest_layout, py_join.
  destruct (all_str_group ("### Important Emails" +:+ PyStr.nl) _ (Hsub "important"))
    as [ss1 H1].
  destruct (all_str_group ("### Notifications" +:+ PyStr.nl) _ (Hsub "notification"))
    as [ss2 H2].
  destruct (all_str_group ("### Newsletters" +:+ PyStr.nl) _ (Hsub "newsletter"))
    as [ss3 H3].
  erewrite all_str_app; [| reflexivity |].
  2:{ apply all_str_app; [exact H1|]. apply all_str_app; [exact H2|].
      apply all_str_app; [exact H3 | reflexivity]. }
  cbn. eauto.
Qed.

(** Records whose categories are all in the enumeration fall into the
    three groups, each record into one. *)
Lemma groups_partition classified_emails :
  Forall (fun e => enumerated (c_category e) = true) classified_emails ->
  classified_emails
  ≡ₚ List.filter (has_category "important") classified_emails
     ++ List.filter (has_category "notification") classified_emails
     ++ List.filter (has_category "newsletter") classified_emails.
Proof.
  induction 1 as [|e rest Hcat _ IH]; [reflexivity|].
  cbn [List.filter]. unfold enumerated in Hcat.
  assert (Hcmp : forall name, has_category name e = py_eq_str (c_category e) name)
    by reflexivity.
  rewrite !Hcmp. clear Hcmp.
  destruct (c_category e) as [| | | |s| |]; try discriminate. cbn [py_eq_str] in *.
  destruct (String.eqb s "important") eqn:Himp.
  - apply String.eqb_eq in Himp. subst s. cbn. constructor. exact IH.
  - destruct (String.eqb s "notification") eqn:Hnot.
    + apply String.eqb_eq in Hnot. subst s. cbn.
      rewrite <- Permutation_middle. constructor. exact IH.
    + destruct (String.eqb s "newsletter") eqn:Hnews; [|discriminate].
      apply String.eqb_eq in Hnews. subst s. cbn.
      rewrite app_assoc, <- Permutation_middle, <- app_assoc. constructor. exact IH.
Qed.

(** C4, at the failing input: a record whose category is ["spam"] is in
    none of the three groups, so the digest holds the title and the closing
    line only; in the run that fetches and classifies this one message the
    message is marked read and the digest sent for conversion does not
    mention it. *)
Theorem digest_omits_unlisted_category :
  generate_executive_summary Sample.spam_run_svc [Sample.spam_email] Sample.w1
  = (Done ("**Executive Summary for January 01, 2025**" +:+ PyStr.nl +:+ PyStr.nl
           +:+ PyStr.nl +:+ "**End of Summary**"), Sample.w1)
  /\ fst (classify_all Sample.spam_run_svc [Email "m1" "Offer" "preview"] [] Sample.w1)
     = Done [Sample.spam_email]
  /\ fst (main Sample.spam_run_svc 1 Sample.w1) = Done tt
  /\ map ev_req (trace (snd (main Sample.spam_run_svc 1 Sample.w1)))
     = [ ReqBuild;
         ReqList "is:unread newer_than:1d" None;
         ReqGet "m1";
         ReqChat OPENAI_MODEL_CLASSIFY (classification_messages "Offer" "preview") true;
         ReqModify "m1";
         ReqChat OPENAI_MODEL_SUMMARY
           [("user", "Convert the following Markdown to HTML." +:+ PyStr.nl +:+ PyStr.nl
                     +:+ "**Executive Summary for January 01, 2025**" +:+ PyStr.nl
                     +:+ PyStr.nl +:+ PyStr.nl +:+ "**End of Summary**")] false;
         ReqSend SEND_TO_EMAIL "Daily Recap: January 01, 2025" "<p>Recap</p>" ].
Proof. repeat split; reflexivity. Qed.

(** ** The reporter: the conversion *)

Lemma split_nonempty sep s : PyStr.split sep s <> [].
Proof.
  destruct s as [|c s]; cbn; [discriminate|].
  destruct (Ascii.eqb c sep); [discriminate|].
  destruct (PyStr.split sep s); discriminate.
Qed.

Lemma append_cons c s t : String c s +:+ t = String c (s +:+ t).
Proof. reflexivity. Qed.

Lemma append_nil t : "" +:+ t = t.
Proof. reflexivity. Qed.

Lemma split_single_line s :
  single_line s = true -> PyStr.split "010"%char s = [s].
Proof.
  induction s as [|c s IH]; cbn [single_line PyStr.split]; [reflexivity|].
  intros Hline. apply andb_prop in Hline. destruct Hline as [Hc Hs].
  apply negb_true_iff in Hc. rewrite Hc, (IH Hs). reflexivity.
Qed.

Lemma split_first_line first s :
  single_line first = true ->
  PyStr.split "010"%char (first +:+ PyStr.nl +:+ s) = first :: PyStr.split "010"%char s.
Proof.
  induction first as [|c first IH]; cbn [single_line]; [reflexivity|].
  intros Hline. apply andb_prop in Hline. destruct Hline as [Hc Hfirst].
  apply negb_true_iff in Hc.
  rewrite append_cons. cbn [PyStr.split]. rewrite Hc, (IH Hfirst). reflexivity.
Qed.

Lemma split_last_line s last :
  single_line last = true ->
  PyStr.split "010"%char (s +:+ PyStr.nl +:+ last) = PyStr.split "010"%char s ++ [last].
Proof.
  intros Hlast. induction s as [|c s IH].
  - rewrite append_nil. unfold PyStr.nl. rewrite append_cons, append_nil.
    cbn [PyStr.split Ascii.eqb Bool.eqb]. rewrite (split_single_line last Hlast). reflexivity.
  - rewrite append_cons. cbn [PyStr.split]. rewrite IH.
    destruct (Ascii.eqb c "010"); [reflexivity|].
    destruct (PyStr.split "010" s) as [|piece pieces] eqn:Hs; [|reflexivity].
    exfalso. exact (split_nonempty _ _ Hs).
Qed.

Lemma join_split s : PyStr.join PyStr.nl (PyStr.split "010"%char s) = s.
Proof.
  unfold PyStr.join. induction s as [|c s IH]; [reflexivity|].
  cbn [PyStr.split]. destruct (Ascii.eqb c "010") eqn:Hc.
  - apply Ascii.eqb_eq in Hc. subst c.
    destruct (PyStr.split "010" s) as [|piece pieces] eqn:Hs;
      [exfalso; exact (split_nonempty _ _ Hs)|].
    rewrite <- IH. reflexivity.
  - destruct (PyStr.split "010" s) as [|piece pieces] eqn:Hs;
      [exfalso; exact (split_nonempty _ _ Hs)|].
    rewrite <- IH. destruct pieces; reflexivity.
Qed.

Lemma slice_1_m1_middle {A} (first : A) middle last :
  slice_1_m1 (first :: middle ++ [last]) = middle.
Proof.
  unfold slice_1_m1. cbn [drop]. rewrite drop_0.
  replace (length (first :: middle ++ [last]) - 2) with (length middle)
    by (cbn; rewrite length_app; cbn; lia).
  apply take_app_length.
Qed.

Lemma strip_fences_body content first body last :
  PyStr.strip content = first +:+ PyStr.nl +:+ body +:+ PyStr.nl +:+ last ->
  single_line first = true ->
  single_line last = true ->
  strip_fences content = body.
Proof.
  intros Hcontent Hfirst Hlast. unfold strip_fences. rewrite Hcontent.
  rewrite (split_first_line first _ Hfirst), (split_last_line body last Hlast).
  rewrite slice_1_m1_middle. apply join_split.
Qed.

(** X24: when the answer of the conversion request, stripped of
    surrounding white space, is a first line, a body and a last line,
    [convert_md_to_html] returns the body, unchanged, whatever the first
    and the last line hold. *)
Theorem convert_md_to_html_fenced svc markdown_text w c rest content first body last :
  conversion_answer svc markdown_text w = Ok (ChatResponse (c :: rest)) ->
  msg_content (message c) = Some content ->
  PyStr.strip content = first +:+ PyStr.nl +:+ body +:+ PyStr.nl +:+ last ->
  single_line first = true ->
  single_line last = true ->
  exists w', convert_md_to_html svc markdown_text w = (Done body, w').
Proof.
  unfold conversion_answer. intros Hanswer Hcontent Hstrip Hfirst Hlast.
  unfold convert_md_to_html, try_except, bind, execute.
  rewrite Hanswer; cbn. rewrite Hcontent; cbn.
  rewrite (strip_fences_body content first body last Hstrip Hfirst Hlast).
  eauto.
Qed.

Lemma convert_md_to_html_fenced_witness :
  exists w', convert_md_to_html Sample.failing_modify_svc "**Recap**" Sample.w0
             = (Done "<p>Recap</p>", w').
Proof.
  eapply (convert_md_to_html_fenced Sample.failing_modify_svc "**Recap**" Sample.w0
            _ _ Sample.fenced_html "```html" "<p>Recap</p>" "```"); reflexivity.
Defined.

(** C8, at the failing input: the answer of the conversion request is
    three lines of markup without code fences. [convert_md_to_html] removes
    the first and the last of them, which are content, and in the run of
    [main] the one line left is what [send_html_email] is given as
    [html_content]. *)
Theorem unfenced_answer_loses_lines :
  conversion_answer Sample.unfenced_svc "**Recap**" Sample.w0
  = Sample.text_answer Sample.unfenced_html
  /\ PyStr.split "010"%char (PyStr.strip Sample.unfenced_html)
     = ["<p>One</p>"; "<p>Two</p>"; "<p>Three</p>"]
  /\ fst (convert_md_to_html Sample.unfenced_svc "**Recap**" Sample.w0) = Done "<p>Two</p>"
  /\ fst (main Sample.unfenced_svc 1 Sample.w1) = Done tt
  /\ last (map ev_req (trace (snd (main Sample.unfenced_svc 1 Sample.w1))))
     = Some (ReqSend SEND_TO_EMAIL "Daily Recap: January 01, 2025" "<p>Two</p>").
Proof. repeat split; reflexivity. Qed.

(** ** Further properties: one request per call *)

Lemma classify_run svc subject snippet w :
  exists r,
    classify_and_summarize_email svc subject snippet w
    = (Done r,
       World (unread w)
             (trace w ++ [Event (ReqChat OPENAI_MODEL_CLASSIFY
                                         (classification_messages subject snippet) true)
                                (answered (classification_answer svc subject snippet w))])).
Proof.
  unfold classify_and_summarize_email, classification_answer, try_except, bind, execute.
  destruct (chat_completions_create _ _ _ _ _) as [[[|[[content [fc|]]] rest]]|e];
    cbn; eauto.
  destruct fc as [name [[]|e]]; cbn; eauto.
Qed.

Lemma convert_run svc markdown_text w :
  exists html,
    convert_md_to_html svc markdown_text w
    = (Done html,
       World (unread w)
             (trace w ++ [Event (ReqChat OPENAI_MODEL_SUMMARY
                                         (conversion_messages markdown_text) false)
                                (answered (conversion_answer svc markdown_text w))])).
Proof.
  unfold convert_md_to_html, conversion_answer, conversion_messages, try_except, bind, execute.
  destruct (chat_completions_create _ _ _ _ _) as [[[|[[[content|] fc]] rest]]|e];
    cbn; eauto.
Qed.

Lemma send_run svc to_address subject html_content w :
  send_html_email svc to_address subject html_content w
  = (Done tt,
     World (unread w)
           (trace w ++ [Event (ReqSend to_address subject html_content)
                              (answered (messages_send svc (trace w) to_address subject
                                                       html_content))])).
Proof.
  unfold send_html_email, try_except, execute.
  destruct (messages_send _ _ _ _ _) as [[]|e]; reflexivity.
Qed.

Lemma generate_run svc classified_emails w :
  snd (generate_executive_summary svc classified_emails w) = w
  /\ fst (generate_executive_summary svc classified_emails w) <> OutOfFuel.
Proof.
  unfold generate_executive_summary, get_current_date_string, bind, lift.
  destruct (py_join _ _); cbn; split; (reflexivity || discriminate).
Qed.

Lemma classify_all_run svc unread_emails : forall classified_emails w,
  exists evs cl,
    classify_all svc unread_emails classified_emails w
    = (Done (classified_emails ++ cl), World (unread w) (trace w ++ evs))
    /\ map ev_req evs = map classification_request unread_emails
    /\ Forall2 classified_from unread_emails cl.
Proof.
  induction unread_emails as [|e rest IH]; intros acc w.
  - exists [], []. cbn. rewrite !app_nil_r. destruct w. repeat split. constructor.
  - cbn [classify_all].
    destruct (classify_run svc (email_subject e) (email_snippet e) w) as [r Hrun].
    rewrite (bind_done _ _ _ _ _ Hrun).
    match goal with
    | |- context [classify_all svc rest ?acc' ?w'] =>
        destruct (IH acc' w') as (evs & cl & Hrest & Hreqs & Hfrom)
    end.
    eexists (_ :: evs), (_ :: cl). rewrite Hrest. cbn [unread trace].
    rewrite <- !app_assoc. cbn [app]. split; [reflexivity|]. split.
    + cbn [map ev_req]. f_equal. exact Hreqs.
    + constructor; [|exact Hfrom]. repeat split.
Qed.

(** ** Further properties: the fetcher *)

Section FetcherIds.

Variable svc : services.

Lemma get_ids_app evs1 evs2 : get_ids (evs1 ++ evs2) = get_ids evs1 ++ get_ids evs2.
Proof. unfold get_ids. apply flat_map_app. Qed.

Lemma fetch_messages_ids messages : forall acc w l w',
  fetch_messages svc messages acc w = (Done l, w') ->
  exists evs new,
    trace w' = trace w ++ evs
    /\ l = acc ++ new
    /\ map email_id new = map ref_id messages
    /\ get_ids evs = map ref_id messages
    /\ Forall (fun ev => well_formed_list_request (ev_req ev)) evs.
Proof.
  induction messages as [|msg rest IH]; intros acc w l w' Hrun; cbn [fetch_messages] in Hrun.
  - inversion Hrun; subst. exists [], []. rewrite !app_nil_r. repeat split. constructor.
  - unfold bind at 1, execute at 1 in Hrun.
    destruct (messages_get svc (trace w) (ref_id msg)) as [d|e]; [|discriminate].
    destruct (IH _ _ _ _ Hrun) as (evs & new & Htrace & Hl & Hids & Hgets & Hwf).
    exists (Event (ReqGet (ref_id msg)) true :: evs), (email_of_detail (ref_id msg) d :: new).
    cbn [trace] in Htrace. rewrite <- app_assoc in Htrace, Hl.
    split; [exact Htrace|]. split; [exact Hl|].
    split; [cbn; f_equal; exact Hids|].
    split; [cbn; f_equal; exact Hgets|].
    constructor; [exact I | exact Hwf].
Qed.

Lemma fetch_pages_ids fuel : forall page_token acc w l w',
  page_token <> Some "" ->
  fetch_pages svc fuel page_token acc w = (Done l, w') ->
  exists evs new,
    trace w' = trace w ++ evs
    /\ l = acc ++ new
    /\ map email_id new = get_ids evs
    /\ Forall (fun ev => well_formed_list_request (ev_req ev)) evs.
Proof.
  induction fuel as [|fuel IH]; intros page_token acc w l w' Htoken Hrun;
    cbn [fetch_pages] in Hrun; [discriminate|].
  unfold bind at 1, execute at 1 in Hrun.
  destruct (messages_list svc (trace w) _ page_token) as [response|e]; [|discriminate].
  unfold bind in Hrun.
  destruct (fetch_messages svc _ acc _) as [[acc1|e|] w1] eqn:Hmsgs; try discriminate.
  destruct (fetch_messages_ids _ _ _ _ _ Hmsgs) as (evs1 & new1 & Htrace1 & Hacc1 & Hids1 & Hgets1 & Hwf1).
  cbn [trace] in Htrace1. rewrite <- app_assoc in Htrace1. cbn [app] in Htrace1.
  assert (Hdone : (Done l, w') = (Done acc1, w1) ->
          exists evs new, trace w' = trace w ++ evs /\ l = acc ++ new
                          /\ map email_id new = get_ids evs
                          /\ Forall (fun ev => well_formed_list_request (ev_req ev)) evs).
  { intros Heq. inversion Heq; subst l w'.
    exists (Event (ReqList "is:unread newer_than:1d" page_token) true :: evs1), new1.
    split; [exact Htrace1|]. split; [exact Hacc1|].
    split; [cbn [get_ids flat_map ev_req app]; fold (get_ids evs1); congruence|].
    constructor; [split; [reflexivity | exact Htoken] | exact Hwf1]. }
  destruct (lr_nextPageToken response) as [t|] eqn:Hnext; [|apply Hdone; symmetry; exact Hrun].
  destruct (PyStr.truthy t) eqn:Htruthy; [|apply Hdone; symmetry; exact Hrun].
  assert (Hnonempty : Some t <> Some "").
  { intros Heq. inversion Heq; subst t. discriminate Htruthy. }
  destruct (IH _ _ _ _ _ Hnonempty Hrun) as (evs2 & new2 & Htrace2 & Hl & Hids2 & Hwf2).
  exists (Event (ReqList "is:unread newer_than:1d" page_token) true :: evs1 ++ evs2),
         (new1 ++ new2).
  split; [rewrite Htrace2, Htrace1, <- app_assoc; reflexivity|].
  split; [rewrite Hl, Hacc1, <- app_assoc; reflexivity|].
  split.
  - rewrite map_app, Hids1, Hids2. cbn [get_ids flat_map ev_req app].
    fold (get_ids (evs1 ++ evs2)). rewrite get_ids_app, Hgets1. reflexivity.
  - constructor; [split; [reflexivity | exact Htoken]|].
    apply Forall_app; split; assumption.
Qed.

End FetcherIds.

Lemma fetch_messages_requests svc messages : forall acc w,
  exists evs,
    trace (snd (fetch_messages svc messages acc w)) = trace w ++ evs
    /\ Forall (fun ev => well_formed_list_request (ev_req ev)) evs.
Proof.
  induction messages as [|msg rest IH]; intros acc w; cbn [fetch_messages].
  - exists []. cbn. rewrite app_nil_r. split; [reflexivity | constructor].
  - unfold bind at 1, execute at 1.
    destruct (messages_get svc (trace w) (ref_id msg)) as [d|e].
    + match goal with
      | |- context [fetch_messages svc rest ?acc' ?w'] =>
          destruct (IH acc' w') as (evs & Htrace & Hwf)
      end.
      exists (Event (ReqGet (ref_id msg)) true :: evs).
      rewrite Htrace. cbn [trace]. rewrite <- app_assoc.
      split; [reflexivity | constructor; [exact I | exact Hwf]].
    + exists [Event (ReqGet (ref_id msg)) false].
      split; [reflexivity | constructor; [exact I | constructor]].
Qed.

Lemma fetch_pages_requests svc fuel : forall page_token acc w,
  page_token <> Some "" ->
  exists evs,
    trace (snd (fetch_pages svc fuel page_token acc w)) = trace w ++ evs
    /\ Forall (fun ev => well_formed_list_request (ev_req ev)) evs.
Proof.
  induction fuel as [|fuel IH]; intros page_token acc w Htoken; cbn [fetch_pages].
  - exists []. cbn. rewrite app_nil_r. split; [reflexivity | constructor].
  - unfold bind at 1, execute at 1.
    destruct (messages_list svc (trace w) _ page_token) as [response|e].
    + set (ev := Event (ReqList "is:unread newer_than:1d" page_token) true).
      assert (Hev : well_formed_list_request (ev_req ev)) by (split; [reflexivity | exact Htoken]).
      set (w1 := World (unread w) (trace w ++ [ev])).
      destruct (fetch_messages_requests svc (default [] (lr_messages response)) acc w1)
        as (evs1 & Htrace1 & Hwf1).
      unfold bind.
      destruct (fetch_messages svc _ acc w1) as [[acc1|e|] w2]; cbn [snd] in Htrace1.
      * assert (Hstop : exists evs,
                   trace w2 = trace w ++ evs
                   /\ Forall (fun ev => well_formed_list_request (ev_req ev)) evs).
        { exists (ev :: evs1). rewrite Htrace1. unfold w1. cbn [trace].
          rewrite <- app_assoc. split; [reflexivity | constructor; assumption]. }
        destruct (lr_nextPageToken response) as [t|]; [|exact Hstop].
        destruct (PyStr.truthy t) eqn:Htruthy; [|exact Hstop].
        assert (Hnonempty : Some t <> Some "").
        { intros Heq. inversion Heq; subst t. discriminate Htruthy. }
        destruct (IH (Some t) acc1 w2 Hnonempty) as (evs2 & Htrace2 & Hwf2).
        exists (ev :: evs1 ++ evs2). rewrite Htrace2, Htrace1. unfold w1. cbn [trace].
        rewrite <- !app_assoc. split; [reflexivity|].
        constructor; [exact Hev | apply Forall_app; split; assumption].
      * exists (ev :: evs1). cbn [snd]. rewrite Htrace1. unfold w1. cbn [trace].
        rewrite <- app_assoc. split; [reflexivity | constructor; assumption].
      * exists (ev :: evs1). cbn [snd]. rewrite Htrace1. unfold w1. cbn [trace].
        rewrite <- app_assoc. split; [reflexivity | constructor; assumption].
    + exists [Event (ReqList "is:unread newer_than:1d" page_token) false].
      split; [reflexivity|]. constructor; [split; [reflexivity | exact Htoken] | constructor].
Qed.

Lemma fetcher_post_all svc fuel w :
  exists evs,
    trace (snd (get_unread_emails_past_24h svc fuel w)) = trace w ++ evs
    /\ Forall (fun ev => fetch_request (ev_req ev) = true) evs
    /\ (forall e, fst (get_unread_emails_past_24h svc fuel w) <> Raised e).
Proof.
  rewrite get_unread_snd.
  destruct (fetch_pages_post svc fuel None [] w) as (evs & Htrace & _ & Hkind & _).
  exists evs. split; [exact Htrace|]. split; [exact Hkind|].
  intros e. unfold get_unread_emails_past_24h, try_except, ret.
  destruct (fetch_pages svc fuel None [] w) as [[l|e'|] w']; discriminate.
Qed.

(** X1: the fetcher never raises, whatever the services answer: it returns
    a list (or the model runs out of pages); it issues list and get
    requests only, and leaves the mailbox as it found it. *)
Theorem fetcher_contained svc fuel w :
  (forall e, fst (get_unread_emails_past_24h svc fuel w) <> Raised e)
  /\ unread (snd (get_unread_emails_past_24h svc fuel w)) = unread w
  /\ exists evs,
       trace (snd (get_unread_emails_past_24h svc fuel w)) = trace w ++ evs
       /\ Forall (fun ev => fetch_request (ev_req ev) = true) evs.
Proof.
  split.
  - intros e. unfold get_unread_emails_past_24h, try_except, ret.
    destruct (fetch_pages svc fuel None [] w) as [[l|e'|] w']; discriminate.
  - rewrite get_unread_snd.
    destruct (fetch_pages_post svc fuel None [] w) as (evs & Htrace & Hunread & Hkind & _).
    split; [exact Hunread|]. exists evs. split; assumption.
Qed.

(** X2: every list request of the fetcher carries the query
    ["is:unread newer_than:1d"], and a page token that is either absent or
    a non-empty string: an empty [nextPageToken] ends the paging like a
    missing one. *)
Theorem fetcher_list_requests svc fuel w :
  exists evs,
    trace (snd (get_unread_emails_past_24h svc fuel w)) = trace w ++ evs
    /\ Forall (fun ev => well_formed_list_request (ev_req ev)) evs.
Proof.
  rewrite get_unread_snd. apply fetch_pages_requests. discriminate.
Qed.

(** X3: when no request of the fetch stage has raised and the fetcher
    returns, the ids of the returned records are the ids of the get
    requests it issued, in the same order: one record per message
    retrieved. *)
Theorem fetcher_returns_retrieved svc fuel w emails w' evs :
  get_unread_emails_past_24h svc fuel w = (Done emails, w') ->
  trace w' = trace w ++ evs ->
  Forall (fun ev => ev_ok ev = true) evs ->
  map email_id emails = get_ids evs.
Proof.
  unfold get_unread_emails_past_24h, try_except. intros Hrun Htrace Hok.
  destruct (fetch_pages svc fuel None [] w) as [[l|e|] w1] eqn:Hpages.
  - inversion Hrun; subst l w1.
    destruct (fetch_pages_ids svc fuel None [] w emails w') as (evs' & new & Htrace' & Hl & Hids & _);
      [discriminate | exact Hpages |].
    rewrite Htrace in Htrace'. apply app_inv_head in Htrace'. subst evs'.
    cbn in Hl. subst new. exact Hids.
  - exfalso.
    pose proof (fetch_pages_post svc fuel None [] w) as (evs' & Htrace' & _ & _ & Hout).
    rewrite Hpages in Htrace', Hout. cbn [fst snd] in Htrace', Hout.
    unfold ret in Hrun. inversion Hrun; subst.
    rewrite Htrace in Htrace'. apply app_inv_head in Htrace'. subst evs'.
    destruct Hout as (ev & Hin & Hfail). rewrite Forall_forall in Hok.
    specialize (Hok ev Hin). congruence.
  - discriminate.
Qed.

(** X4: the subject of a record is the value of the first header whose
    name is Subject in any letter case; when that value is the empty
    string the record gets the placeholder. *)
Theorem subject_first_match id msg_detail before h after :
  detail_headers msg_detail = before ++ h :: after ->
  Forall (fun h' => String.eqb (PyStr.lower (h_name h')) "subject" = false) before ->
  PyStr.lower (h_name h) = "subject" ->
  email_subject (email_of_detail id msg_detail)
  = if PyStr.truthy (h_value h) then h_value h else "(No Subject)".
Proof.
  intros Hheaders Hbefore Hname. unfold email_of_detail. cbn [email_subject].
  rewrite Hheaders. clear Hheaders.
  induction Hbefore as [|h' before Hh' _ IH]; cbn [app find_subject].
  - rewrite Hname. reflexivity.
  - rewrite Hh'. exact IH.
Qed.

(** ** Further properties: main *)

Lemma main_build_failed svc fuel w e :
  gmail_build svc (trace w) = Err e ->
  main svc fuel w = (Raised e, World (unread w) (trace w ++ [Event ReqBuild false])).
Proof.
  intros Hbuild. unfold main, bind at 1, get_gmail_service, execute. rewrite Hbuild.
  reflexivity.
Qed.

Lemma mark_requests_modify svc classified_emails w :
  exists evs w',
    mark_non_important_as_read svc classified_emails w = (Done tt, w')
    /\ trace w' = trace w ++ evs
    /\ Forall (fun ev => is_modify (ev_req ev) = true) evs
    /\ (forall id, id ∈ unread w' <-> id ∈ unread w /\ Event (ReqModify id) true ∉ evs)
    /\ (forall id ok, Event (ReqModify id) ok ∈ evs ->
          exists c, c ∈ classified_emails /\ c_id c = id /\ non_important c = true).
Proof.
  destruct (mark_run svc classified_emails w) as (evs & w' & Hrun & Htrace & Hreqs & Hunread).
  exists evs, w'. split; [exact Hrun|]. split; [exact Htrace|].
  assert (Hall : forall ev, ev ∈ evs -> ev_req ev ∈ modify_requests classified_emails).
  { intros ev Hin. rewrite <- Hreqs. apply list_elem_of_fmap. exists ev. split; [reflexivity | exact Hin]. }
  split; [|split; [exact Hunread|]].
  - apply Forall_forall. intros ev Hin. specialize (Hall ev Hin).
    unfold modify_requests in Hall. apply list_elem_of_fmap in Hall.
    destruct Hall as (c & Heq & _). rewrite Heq. reflexivity.
  - intros id ok Hin. apply modify_requests_elem. exact (Hall _ Hin).
Qed.

Lemma main_after_fetch svc fuel w w1 e es w2 :
  get_gmail_service svc w = (Done tt, w1) ->
  get_unread_emails_past_24h svc fuel w1 = (Done (e :: es), w2) ->
  exists cl evs_c evs_m evs_r,
    classify_all svc (e :: es) [] w2 = (Done cl, World (unread w2) (trace w2 ++ evs_c))
    /\ map ev_req evs_c = map classification_request (e :: es)
    /\ Forall2 classified_from (e :: es) cl
    /\ trace (snd (main svc fuel w)) = trace w2 ++ evs_c ++ evs_m ++ evs_r
    /\ map ev_req evs_m = modify_requests cl
    /\ (forall id, id ∈ unread (snd (main svc fuel w))
                   <-> id ∈ unread w2 /\ Event (ReqModify id) true ∉ evs_m)
    /\ ((fst (main svc fuel w) = Done tt /\ report_requests evs_r)
        \/ (evs_r = []
            /\ exists x w4,
                 fst (main svc fuel w) = Raised x
                 /\ generate_executive_summary svc cl w4 = (Raised x, w4))).
Proof.
  intros Hauth Hfetch.
  destruct (classify_all_run svc (e :: es) [] w2) as (evs_c & cl & Hclassify & Hreqs_c & Hfrom).
  cbn [app] in Hclassify.
  set (w3 := World (unread w2) (trace w2 ++ evs_c)) in *.
  destruct (mark_run svc cl w3) as (evs_m & w4 & Hmark & Htrace_m & Hreqs_m & Hunread_m).
  destruct (generate_run svc cl w4) as [Hgen_w Hgen_out].
  assert (Hmain : main svc fuel w
                  = (x <- generate_executive_summary svc cl ;;
                     summary_html <- convert_md_to_html svc x ;;
                     date <- get_current_date_string svc ;;
                     send_html_email svc SEND_TO_EMAIL ("Daily Recap: " +:+ date)
                                     summary_html) w4).
  { unfold main.
    rewrite (bind_done _ _ _ _ _ Hauth), (bind_done _ _ _ _ _ Hfetch).
    rewrite (bind_done _ _ _ _ _ Hclassify), (bind_done _ _ _ _ _ Hmark). reflexivity. }
  destruct (generate_executive_summary svc cl w4) as [[md|x|] w4'] eqn:Hgen;
    cbn [fst snd] in Hgen_w, Hgen_out; subst w4'; [| |contradiction].
  - destruct (convert_run svc md w4) as [html Hconvert].
    assert (Hdone : exists date ok_convert ok_send,
               main svc fuel w
               = (Done tt,
                  World (unread w4)
                        (trace w4
                         ++ [ Event (ReqChat OPENAI_MODEL_SUMMARY (conversion_messages md)
                                             false) ok_convert;
                              Event (ReqSend SEND_TO_EMAIL ("Daily Recap: " +:+ date) html)
                                    ok_send ]))).
    { do 3 eexists. rewrite Hmain.
      rewrite (bind_done _ _ _ _ _ Hgen), (bind_done _ _ _ _ _ Hconvert).
      unfold bind, get_current_date_string. rewrite send_run. cbn [trace unread].
      rewrite <- app_assoc. reflexivity. }
    destruct Hdone as (date & ok_convert & ok_send & Hdone). rewrite Hdone.
    cbn [fst snd trace unread].
    exists cl, evs_c, evs_m. eexists.
    split; [exact Hclassify|]. split; [exact Hreqs_c|]. split; [exact Hfrom|].
    split; [rewrite Htrace_m; unfold w3; cbn [trace]; rewrite <- !app_assoc; reflexivity|].
    split; [exact Hreqs_m|]. split; [exact Hunread_m|].
    left. split; [reflexivity|]. unfold report_requests. do 5 eexists. reflexivity.
  - rewrite Hmain, (bind_raised _ _ _ _ _ Hgen). cbn [fst snd].
    exists cl, evs_c, evs_m, [].
    split; [exact Hclassify|]. split; [exact Hreqs_c|]. split; [exact Hfrom|].
    split; [rewrite Htrace_m; unfold w3; cbn [trace]; rewrite app_nil_r, <- !app_assoc;
            reflexivity|].
    split; [exact Hreqs_m|]. split; [exact Hunread_m|].
    right. split; [reflexivity|]. exists x, w4. split; [reflexivity | exact Hgen].
Qed.

(** X5: the requests of a run of [main] come in the order of the stages:
    first the authenticator's, then list and get requests, then one
    classification request per fetched record, then modify requests, and
    last, when the run gets that far, exactly one conversion request
    followed by exactly one send request, addressed to the fixed recipient
    with the subject ["Daily Recap: <date>"]. The run gets that far exactly
    when it returns and has classified something. *)
Theorem main_stage_order svc fuel w :
  exists ok evs_f evs_c evs_m evs_r,
    trace (snd (main svc fuel w))
    = trace w ++ Event ReqBuild ok :: evs_f ++ evs_c ++ evs_m ++ evs_r
    /\ Forall (fun ev => fetch_request (ev_req ev) = true) evs_f
    /\ Forall (fun ev => exists e, ev_req ev = classification_request e) evs_c
    /\ Forall (fun ev => is_modify (ev_req ev) = true) evs_m
    /\ (evs_r = [] \/ report_requests evs_r)
    /\ (report_requests evs_r <-> fst (main svc fuel w) = Done tt /\ evs_c <> []).
Proof.
  destruct (get_gmail_service svc w) as [[[]|x|] w1] eqn:Hauth;
    unfold get_gmail_service, execute in Hauth;
    destruct (gmail_build svc (trace w)) as [[]|x'] eqn:Hbuild; try discriminate.
  - inversion Hauth; subst w1. clear Hauth.
    assert (Hauth : get_gmail_service svc w
                    = (Done tt, World (unread w) (trace w ++ [Event ReqBuild true]))).
    { unfold get_gmail_service, execute. rewrite Hbuild. reflexivity. }
    set (w1 := World (unread w) (trace w ++ [Event ReqBuild true])) in *.
    destruct (fetcher_post_all svc fuel w1) as (evs_f & Htrace_f & Hkind_f & Hnot_raised).
    destruct (get_unread_emails_past_24h svc fuel w1) as [[[|e es]|x|] w2] eqn:Hfetch;
      cbn [fst snd] in *.
    + exists true, evs_f, [], [], [].
      unfold main. rewrite (bind_done _ _ _ _ _ Hauth), (bind_done _ _ _ _ _ Hfetch).
      cbn [fst snd ret]. rewrite Htrace_f. unfold w1. cbn [trace].
      rewrite !app_nil_r, <- app_assoc.
      split; [reflexivity|]. split; [exact Hkind_f|]. split; [constructor|].
      split; [constructor|]. split; [left; reflexivity|].
      split; [intros (? & ? & ? & ? & ? & Habs); discriminate Habs | intros [_ Habs]; contradiction].
    + destruct (main_after_fetch svc fuel w w1 e es w2 Hauth Hfetch)
        as (cl & evs_c & evs_m & evs_r & _ & Hreqs_c & _ & Htrace & Hreqs_m & _ & Hend).
      exists true, evs_f, evs_c, evs_m, evs_r.
      split; [rewrite Htrace, Htrace_f; unfold w1; cbn [trace]; rewrite <- !app_assoc;
              reflexivity|].
      split; [exact Hkind_f|].
      assert (Hc : Forall (fun ev => exists e, ev_req ev = classification_request e) evs_c
                   /\ evs_c <> []).
      { split.
        - apply Forall_forall. intros ev Hin.
          assert (Hreq : ev_req ev ∈ map classification_request (e :: es)).
          { rewrite <- Hreqs_c. apply list_elem_of_fmap. eauto. }
          apply list_elem_of_fmap in Hreq. destruct Hreq as (e' & Heq & _). eauto.
        - intros ->. discriminate Hreqs_c. }
      destruct Hc as [Hkind_c Hnonempty].
      split; [exact Hkind_c|]. split.
      { apply Forall_forall. intros ev Hin.
        assert (Hreq : ev_req ev ∈ modify_requests cl).
        { rewrite <- Hreqs_m. apply list_elem_of_fmap. eauto. }
        unfold modify_requests in Hreq. apply list_elem_of_fmap in Hreq.
        destruct Hreq as (c & Heq & _). rewrite Heq. reflexivity. }
      destruct Hend as [[Hdone Hreport] | [Hnone (x & w4 & Hraised & _)]].
      * split; [right; exact Hreport|]. split; [intros _; split; assumption | intros _; exact Hreport].
      * subst evs_r. split; [left; reflexivity|].
        split; [intros (? & ? & ? & ? & ? & Habs); discriminate Habs|].
        intros [Hdone _]. congruence.
    + exfalso. exact (Hnot_raised x eq_refl).
    + exists true, evs_f, [], [], [].
      unfold main. rewrite (bind_done _ _ _ _ _ Hauth), (bind_out_of_fuel _ _ _ _ Hfetch).
      cbn [fst snd]. rewrite Htrace_f. unfold w1. cbn [trace].
      rewrite !app_nil_r, <- app_assoc.
      split; [reflexivity|]. split; [exact Hkind_f|]. split; [constructor|].
      split; [constructor|]. split; [left; reflexivity|].
      split; [intros (? & ? & ? & ? & ? & Habs); discriminate Habs | intros [Habs _]; discriminate Habs].
  - rewrite (main_build_failed svc fuel w x' Hbuild). cbn [fst snd trace].
    exists false, [], [], [], []. cbn [app].
    split; [reflexivity|]. split; [constructor|]. split; [constructor|].
    split; [constructor|]. split; [left; reflexivity|].
    split; [intros (? & ? & ? & ? & ? & Habs); discriminate Habs | intros [Habs _]; discriminate Habs].
Qed.

Lemma get_ids_elem id evs :
  id ∈ get_ids evs -> exists ok, Event (ReqGet id) ok ∈ evs.
Proof.
  induction evs as [|[req ok] evs IH]; cbn [get_ids flat_map ev_req].
  - intros Hin. apply not_elem_of_nil in Hin. destruct Hin.
  - fold (get_ids evs). intros Hin. apply elem_of_app in Hin. destruct Hin as [Hin|Hin].
    + destruct req; try (apply not_elem_of_nil in Hin; destruct Hin).
      apply list_elem_of_singleton in Hin. subst. exists ok. apply list_elem_of_here.
    + destruct (IH Hin) as [ok' Hin']. exists ok'. apply list_elem_of_further. exact Hin'.
Qed.

Lemma fetched_nonempty_ids svc fuel w e es w' :
  get_unread_emails_past_24h svc fuel w = (Done (e :: es), w') ->
  exists evs,
    trace w' = trace w ++ evs
    /\ unread w' = unread w
    /\ map email_id (e :: es) = get_ids evs
    /\ Forall (fun ev => ev_ok ev = true) evs.
Proof.
  unfold get_unread_emails_past_24h, try_except, ret. intros Hrun.
  pose proof (fetch_pages_post svc fuel None [] w) as (evs & Htrace & Hunread & _ & Hout).
  destruct (fetch_pages svc fuel None [] w) as [[l|x|] w1] eqn:Hpages; try discriminate.
  inversion Hrun; subst l w1. cbn [fst snd] in *.
  destruct Hout as [Hok _].
  destruct (fetch_pages_ids svc fuel None [] w _ _ ltac:(discriminate) Hpages)
    as (evs' & new & Htrace' & Hl & Hids & _).
  rewrite Htrace in Htrace'. apply app_inv_head in Htrace'. subst evs'.
  cbn in Hl. subst new.
  exists evs. repeat split; assumption.
Qed.

Lemma classified_from_id emails cl c :
  Forall2 classified_from emails cl -> c ∈ cl ->
  exists e, e ∈ emails /\ email_id e = c_id c.
Proof.
  induction 1 as [|e c' emails cl Hfrom _ IH]; intros Hin.
  - apply not_elem_of_nil in Hin. destruct Hin.
  - apply elem_of_cons in Hin. destruct Hin as [->|Hin].
    + exists e. split; [apply list_elem_of_here | symmetry; apply Hfrom].
    + destruct (IH Hin) as (e' & Hin' & Hid). exists e'.
      split; [apply list_elem_of_further; exact Hin' | exact Hid].
Qed.

(** X6: a run of [main] takes the unread flag off only from messages it
    has itself retrieved in this run: for a message that was unread when
    the run started and is not when it ends, the trace of the run holds an
    answered get request and an answered modify request for its id. *)
Theorem main_marks_only_fetched svc fuel w :
  exists evs,
    trace (snd (main svc fuel w)) = trace w ++ evs
    /\ (forall id, id ∈ unread w -> id ∉ unread (snd (main svc fuel w)) ->
          Event (ReqGet id) true ∈ evs /\ Event (ReqModify id) true ∈ evs).
Proof.
  destruct (gmail_build svc (trace w)) as [[]|x] eqn:Hbuild.
  - assert (Hauth : get_gmail_service svc w
                    = (Done tt, World (unread w) (trace w ++ [Event ReqBuild true]))).
    { unfold get_gmail_service, execute. rewrite Hbuild. reflexivity. }
    set (w1 := World (unread w) (trace w ++ [Event ReqBuild true])) in *.
    destruct (fetch_pages_post svc fuel None [] w1) as (evs_f & Htrace_f & Hunread_f & _).
    rewrite <- get_unread_snd in Htrace_f, Hunread_f.
    destruct (get_unread_emails_past_24h svc fuel w1) as [[[|e es]|x|] w2] eqn:Hfetch;
      cbn [fst snd] in *.
    + exists (Event ReqBuild true :: evs_f).
      unfold main. rewrite (bind_done _ _ _ _ _ Hauth), (bind_done _ _ _ _ _ Hfetch).
      cbn [snd ret]. rewrite Htrace_f, Hunread_f. unfold w1. cbn [trace unread].
      rewrite <- app_assoc. split; [reflexivity | contradiction].
    + destruct (main_after_fetch svc fuel w w1 e es w2 Hauth Hfetch)
        as (cl & evs_c & evs_m & evs_r & _ & _ & Hfrom & Htrace & Hreqs_m & Hunread & _).
      destruct (fetched_nonempty_ids svc fuel w1 e es w2 Hfetch)
        as (evs_f' & Htrace_f' & _ & Hids & Hok).
      rewrite Htrace_f in Htrace_f'. apply app_inv_head in Htrace_f'. subst evs_f'.
      exists (Event ReqBuild true :: evs_f ++ evs_c ++ evs_m ++ evs_r).
      split; [rewrite Htrace, Htrace_f; unfold w1; cbn [trace]; rewrite <- !app_assoc;
              reflexivity|].
      rewrite Hunread_f in Hunread. unfold w1 in Hunread. cbn [unread] in Hunread.
      intros id Hbefore Hafter.
      assert (Hmod : Event (ReqModify id) true ∈ evs_m).
      { destruct (decide (Event (ReqModify id) true ∈ evs_m)) as [Hin|Hnot]; [exact Hin|].
        exfalso. apply Hafter. apply Hunread. split; assumption. }
      assert (Hreq : ReqModify id ∈ modify_requests cl).
      { rewrite <- Hreqs_m. apply list_elem_of_fmap.
        exists (Event (ReqModify id) true). split; [reflexivity | exact Hmod]. }
      destruct (modify_requests_elem _ _ Hreq) as (c & Hc & Hcid & _).
      destruct (classified_from_id _ _ _ Hfrom Hc) as (e' & He' & Heid).
      assert (Hget : id ∈ get_ids evs_f).
      { rewrite <- Hids. apply list_elem_of_fmap. exists e'. split; [congruence | exact He']. }
      destruct (get_ids_elem _ _ Hget) as [ok Hev].
      assert (ok = true) as ->.
      { rewrite Forall_forall in Hok. exact (Hok _ Hev). }
      split.
      * apply list_elem_of_further, elem_of_app. left. exact Hev.
      * apply list_elem_of_further. rewrite !elem_of_app. right; right; left. exact Hmod.
    + exists (Event ReqBuild true :: evs_f).
      unfold main. rewrite (bind_done _ _ _ _ _ Hauth), (bind_raised _ _ _ _ _ Hfetch).
      cbn [snd]. rewrite Htrace_f, Hunread_f. unfold w1. cbn [trace unread].
      rewrite <- app_assoc. split; [reflexivity | contradiction].
    + exists (Event ReqBuild true :: evs_f).
      unfold main. rewrite (bind_done _ _ _ _ _ Hauth), (bind_out_of_fuel _ _ _ _ Hfetch).
      cbn [snd]. rewrite Htrace_f, Hunread_f. unfold w1. cbn [trace unread].
      rewrite <- app_assoc. split; [reflexivity | contradiction].
  - rewrite (main_build_failed svc fuel w x Hbuild). cbn [snd trace unread].
    exists [Event ReqBuild false]. split; [reflexivity | contradiction].
Qed.

(** ** Further properties: the digest *)

Lemma all_str_elem items ss v :
  all_str items = Ok ss -> v ∈ items -> exists s, v = PyString s.
Proof.
  revert ss. induction items as [|v' items IH]; intros ss Hall Hin.
  - apply not_elem_of_nil in Hin. destruct Hin.
  - cbn [all_str] in Hall. destruct v'; try discriminate.
    destruct (all_str items) as [ss'|e]; [|discriminate].
    apply elem_of_cons in Hin. destruct Hin as [->|Hin]; [eauto|].
    exact (IH ss' eq_refl Hin).
Qed.

Lemma all_str_not_ok items :
  (forall ss, all_str items <> Ok ss) ->
  all_str items = Err (Exn "TypeError" "sequence item: expected str instance").
Proof.
  induction items as [|v items IH]; intros Hnot.
  - exfalso. exact (Hnot [] eq_refl).
  - cbn [all_str] in *. destruct v; try reflexivity.
    destruct (all_str items) as [ss|e] eqn:Hitems.
    + exfalso. exact (Hnot _ eq_refl).
    + rewrite IH; [reflexivity | discriminate].
Qed.

Lemma summary_in_entries (f : nat -> nat) c group :
  c ∈ group -> c_summary c ∈ concat (imap (fun k e => entry_lines (f k) e) group).
Proof.
  revert f. induction group as [|e group IH]; intros f Hin.
  - apply not_elem_of_nil in Hin. destruct Hin.
  - cbn [imap concat]. apply elem_of_app. apply elem_of_cons in Hin.
    destruct Hin as [->|Hin].
    + left. unfold entry_lines. apply list_elem_of_further, list_elem_of_here.
    + right. exact (IH (f ∘ S) Hin).
Qed.

Lemma summary_in_block header c group :
  c ∈ group -> c_summary c ∈ group_block header group.
Proof.
  intros Hin. unfold group_block. destruct group as [|e group].
  - apply not_elem_of_nil in Hin. destruct Hin.
  - apply list_elem_of_further. exact (summary_in_entries S c (e :: group) Hin).
Qed.

Lemma listed_in_layout date classified_emails c :
  c ∈ classified_emails -> listed c = true ->
  c_summary c ∈ digest_layout date classified_emails.
Proof.
  intros Hin Hlisted. unfold listed, enumerated in Hlisted. unfold digest_layout.
  assert (Hgroup : forall name, py_eq_str (c_category c) name = true ->
                     c ∈ List.filter (has_category name) classified_emails).
  { intros name Hname. apply list_elem_of_In, filter_In.
    split; [apply list_elem_of_In; exact Hin | exact Hname]. }
  apply orb_prop in Hlisted. destruct Hlisted as [Hlisted|Himp].
  - apply orb_prop in Hlisted. destruct Hlisted as [Hnews|Hnot].
    + rewrite !elem_of_app. do 3 right. left.
      apply summary_in_block, Hgroup, Hnews.
    + rewrite !elem_of_app. do 2 right. left.
      apply summary_in_block, Hgroup, Hnot.
  - rewrite !elem_of_app. right. left. apply summary_in_block, Hgroup, Himp.
Qed.

Lemma has_category_listed name c :
  name = "important" \/ name = "notification" \/ name = "newsletter" ->
  has_category name c = true -> listed c = true.
Proof.
  unfold has_category, listed, enumerated.
  intros [->|[->| ->]] Hcat; rewrite Hcat; rewrite ?orb_true_r; reflexivity.
Qed.

Lemma filter_listed name classified_emails :
  name = "important" \/ name = "notification" \/ name = "newsletter" ->
  List.filter (has_category name) (List.filter listed classified_emails)
  = List.filter (has_category name) classified_emails.
Proof.
  intros Hname. induction classified_emails as [|c rest IH]; [reflexivity|].
  cbn [List.filter]. destruct (has_category name c) eqn:Hcat.
  - rewrite (has_category_listed name c Hname Hcat). cbn [List.filter].
    rewrite Hcat, IH. reflexivity.
  - destruct (listed c); cbn [List.filter]; rewrite ?Hcat; exact IH.
Qed.

Lemma digest_ignores_unlisted_lemma svc classified_emails w :
  generate_executive_summary svc classified_emails w
  = generate_executive_summary svc (List.filter listed classified_emails) w.
Proof.
  unfold generate_executive_summary, get_current_date_string, bind, summary_lines.
  rewrite !filter_listed by tauto. reflexivity.
Qed.

(** X7: the digest depends on the listed records only: records whose
    category is none of the three group names can be dropped from the
    input without changing the outcome. *)
Theorem digest_ignores_unlisted svc classified_emails w :
  generate_executive_summary svc classified_emails w
  = generate_executive_summary svc (List.filter listed classified_emails) w.
Proof. apply digest_ignores_unlisted_lemma. Qed.

Lemma generate_cases svc classified_emails w :
  (Forall (fun c => listed c = true -> summary_is_str c = true) classified_emails
   -> exists text, generate_executive_summary svc classified_emails w = (Done text, w))
  /\ (~ Forall (fun c => listed c = true -> summary_is_str c = true) classified_emails
      -> generate_executive_summary svc classified_emails w
         = (Raised (Exn "TypeError" "sequence item: expected str instance"), w)).
Proof.
  split.
  - intros Hstr. rewrite digest_ignores_unlisted_lemma.
    apply generate_executive_summary_returns.
    apply Forall_forall. intros c Hin.
    apply list_elem_of_In, filter_In in Hin. destruct Hin as [Hin Hlisted].
    rewrite Forall_forall in Hstr. apply list_elem_of_In in Hin.
    specialize (Hstr c Hin Hlisted). unfold summary_is_str in Hstr.
    destruct (c_summary c); try discriminate. eauto.
  - intros Hnot.
    unfold generate_executive_summary, get_current_date_string, bind.
    rewrite summary_lines_layout. unfold py_join.
    rewrite all_str_not_ok; [reflexivity|].
    intros ss Hall. apply Hnot. apply Forall_forall. intros c Hin Hlisted.
    destruct (all_str_elem _ _ _ Hall
                (listed_in_layout (datetime_now svc (trace w)) _ c Hin Hlisted)) as [s Hs].
    unfold summary_is_str. rewrite Hs. reflexivity.
Qed.

Lemma summaries_ok_Forall classified_emails :
  summaries_ok classified_emails = true
  <-> Forall (fun c => listed c = true -> summary_is_str c = true) classified_emails.
Proof.
  unfold summaries_ok. rewrite forallb_forall, Forall_forall. split.
  - intros H c Hin Hlisted. apply list_elem_of_In in Hin. specialize (H c Hin).
    rewrite Hlisted in H. exact H.
  - intros H c Hin. apply list_elem_of_In in Hin. specialize (H c Hin).
    destruct (listed c); [exact (H eq_refl) | reflexivity].
Qed.

Lemma generate_executive_summary_outcome_lemma svc classified_emails w :
  snd (generate_executive_summary svc classified_emails w) = w
  /\ match fst (generate_executive_summary svc classified_emails w) with
     | Done _ => summaries_ok classified_emails = true
     | Raised e => exn_class e = "TypeError" /\ summaries_ok classified_emails = false
     | OutOfFuel => False
     end.
Proof.
  destruct (generate_cases svc classified_emails w) as [Hok Hbad].
  destruct (summaries_ok classified_emails) eqn:Hsum.
  - apply summaries_ok_Forall in Hsum. destruct (Hok Hsum) as [text Hrun].
    rewrite Hrun. split; reflexivity.
  - rewrite Hbad; [cbn; repeat split|].
    intros HF. apply summaries_ok_Forall in HF. congruence.
Qed.

(** X8: the reporter produces a digest exactly when the summary of every
    listed record is a [str]; otherwise the join raises a [TypeError]. In
    both cases it issues no request and leaves the world as it is. *)
Theorem generate_executive_summary_outcome svc classified_emails w :
  snd (generate_executive_summary svc classified_emails w) = w
  /\ match fst (generate_executive_summary svc classified_emails w) with
     | Done _ => summaries_ok classified_emails = true
     | Raised e => exn_class e = "TypeError" /\ summaries_ok classified_emails = false
     | OutOfFuel => False
     end.
Proof. apply generate_executive_summary_outcome_lemma. Qed.

(** X9: when a listed record has a summary that is not a [str], a run of
    [main] that has fetched and classified ends by raising a [TypeError]:
    the modify requests have been issued by then, and neither a conversion
    request nor a send request follows. *)
Theorem main_raises_on_non_str_summary svc fuel w w1 e es w2 cl w3 :
  get_gmail_service svc w = (Done tt, w1) ->
  get_unread_emails_past_24h svc fuel w1 = (Done (e :: es), w2) ->
  classify_all svc (e :: es) [] w2 = (Done cl, w3) ->
  summaries_ok cl = false ->
  exists x evs_m,
    fst (main svc fuel w) = Raised x
    /\ exn_class x = "TypeError"
    /\ trace (snd (main svc fuel w)) = trace w3 ++ evs_m
    /\ map ev_req evs_m = modify_requests cl.
Proof.
  intros Hauth Hfetch Hclassify Hbad.
  destruct (main_after_fetch svc fuel w w1 e es w2 Hauth Hfetch)
    as (cl' & evs_c & evs_m & evs_r & Hclassify' & _ & _ & Htrace & Hreqs_m & _ & Hend).
  rewrite Hclassify in Hclassify'. inversion Hclassify'; subst cl' w3. clear Hclassify'.
  destruct Hend as [[Hdone _] | [-> (x & w4 & Hraised & Hgen)]].
  - exfalso.
    assert (Hmain : exists w4, main svc fuel w
              = (x <- generate_executive_summary svc cl ;;
                 summary_html <- convert_md_to_html svc x ;;
                 date <- get_current_date_string svc ;;
                 send_html_email svc SEND_TO_EMAIL ("Daily Recap: " +:+ date)
                                 summary_html) w4).
    { destruct (mark_run svc cl (World (unread w2) (trace w2 ++ evs_c)))
        as (evs & w4 & Hmark & _).
      exists w4. unfold main.
      rewrite (bind_done _ _ _ _ _ Hauth), (bind_done _ _ _ _ _ Hfetch).
      rewrite (bind_done _ _ _ _ _ Hclassify), (bind_done _ _ _ _ _ Hmark). reflexivity. }
    destruct Hmain as [w4 Hmain].
    pose proof (generate_executive_summary_outcome_lemma svc cl w4) as [Hw Hout].
    destruct (generate_executive_summary svc cl w4) as [[md|x|] w4'] eqn:Hgen;
      cbn [fst snd] in Hw, Hout.
    + congruence.
    + rewrite Hmain, (bind_raised _ _ _ _ _ Hgen) in Hdone. discriminate Hdone.
    + contradiction.
  - pose proof (generate_executive_summary_outcome_lemma svc cl w4) as [_ Hout].
    rewrite Hgen in Hout. cbn [fst] in Hout. destruct Hout as [Hclass _].
    exists x, evs_m. rewrite app_nil_r in Htrace. cbn [trace].
    split; [exact Hraised|]. split; [exact Hclass|].
    split; [rewrite Htrace, <- app_assoc; reflexivity | exact Hreqs_m].
Qed.

(** ** Further properties: the classifier and the loop over the records *)

(** X10: a call of the classifier issues exactly one chat request, for the
    model [gpt-4o], with the two messages built from the subject and the
    snippet and with the function offered; it returns whatever the answer,
    and the mailbox is as before. *)
Theorem classify_single_request svc subject snippet w :
  exists r,
    classify_and_summarize_email svc subject snippet w
    = (Done r,
       World (unread w)
             (trace w ++ [Event (ReqChat "gpt-4o"
                                         (classification_messages subject snippet) true)
                                (answered (classification_answer svc subject snippet w))])).
Proof. apply classify_run. Qed.

(** X11: the category the classifier returns is one of the three
    enumerated values whenever the answer gives no usable arguments, or
    gives an object whose ["category"] is absent or is itself one of the
    three values. *)
Theorem classify_enumerated_when_conforming svc subject snippet w :
  match answer_arguments (classification_answer svc subject snippet w) with
  | Some items => enumerated (dict_get items "category" (PyString "important")) = true
  | None => True
  end ->
  exists r w',
    classify_and_summarize_email svc subject snippet w = (Done r, w')
    /\ enumerated (category r) = true.
Proof.
  unfold classification_answer, answer_arguments. intros Hconform.
  unfold classify_and_summarize_email, try_except, bind, execute.
  destruct (chat_completions_create _ _ _ _ _) as [[[|[[content [fc|]]] rest]]|e];
    cbn in *; eauto.
  destruct fc as [name [v|e]]; cbn in *; eauto.
  destruct v; cbn in *; eauto.
Qed.

Lemma classify_enumerated_when_conforming_witness :
  exists r w',
    classify_and_summarize_email Sample.failing_modify_svc "Offer" "preview" Sample.w0
    = (Done r, w')
    /\ enumerated (category r) = true.
Proof.
  apply (classify_enumerated_when_conforming Sample.failing_modify_svc "Offer" "preview"
           Sample.w0).
  reflexivity.
Defined.

(** X12: the loop of [main] over the fetched records always completes; it
    issues one classification request per record, in the order of the
    list; it appends one classified record per fetched record, in order,
    with the same id, subject and snippet; and the mailbox is as before. *)
Theorem classify_all_preserves svc unread_emails classified_emails w :
  exists evs cl,
    classify_all svc unread_emails classified_emails w
    = (Done (classified_emails ++ cl), World (unread w) (trace w ++ evs))
    /\ map ev_req evs = map classification_request unread_emails
    /\ Forall2 classified_from unread_emails cl.
Proof. apply classify_all_run. Qed.

(** ** Further properties: the mutator *)

Lemma mark_all_answered svc classified_emails :
  (forall h id, answered (messages_modify svc h id) = true) ->
  forall w,
    mark_non_important_as_read svc classified_emails w
    = (Done tt,
       World (unread w ∖ list_to_set (map c_id (List.filter non_important classified_emails)))
             (trace w ++ map (fun c => Event (ReqModify (c_id c)) true)
                             (List.filter non_important classified_emails))).
Proof.
  intros Hanswered. induction classified_emails as [|c rest IH]; intros w.
  - cbn. rewrite app_nil_r, difference_empty_L. destruct w as [u t]. reflexivity.
  - cbn [mark_non_important_as_read List.filter]. fold (non_important c).
    destruct (non_important c).
    + unfold bind at 1, try_except, execute_modify.
      specialize (Hanswered (trace w) (c_id c)).
      destruct (messages_modify svc (trace w) (c_id c)) as [[]|e]; [|discriminate].
      rewrite IH. cbn [unread trace map list_to_set]. rewrite <- app_assoc.
      rewrite difference_difference_l_L. reflexivity.
    + unfold bind at 1, ret. apply IH.
Qed.

(** X13: when the provider answers every modify request, the mutator
    takes the unread flag off exactly the messages of the records that are
    not ["important"]: a message is unread afterwards if and only if it was
    unread before and no such record carries its id. *)
Theorem mark_when_all_answered svc classified_emails w :
  (forall h id, answered (messages_modify svc h id) = true) ->
  exists w',
    mark_non_important_as_read svc classified_emails w = (Done tt, w')
    /\ forall id,
         id ∈ unread w'
         <-> id ∈ unread w
             /\ ~ exists c, c ∈ classified_emails /\ c_id c = id /\ non_important c = true.
Proof.
  intros Hanswered. rewrite (mark_all_answered svc classified_emails Hanswered w).
  eexists. split; [reflexivity|]. cbn [unread]. intros id.
  rewrite elem_of_difference, elem_of_list_to_set, list_elem_of_fmap.
  split; intros [Hin Hnot]; (split; [exact Hin|]); intros (c & H1 & H2).
  - apply Hnot. exists c. destruct H2 as [Hid Hcat]. split; [congruence|].
    apply list_elem_of_In, filter_In. split; [apply list_elem_of_In; exact H1 | exact Hcat].
  - apply Hnot. apply list_elem_of_In, filter_In in H2. destruct H2 as [Hc Hcat].
    exists c. split; [apply list_elem_of_In; exact Hc|]. split; [congruence | exact Hcat].
Qed.

Lemma mark_when_all_answered_witness :
  exists w',
    mark_non_important_as_read Sample.spam_run_svc
      [Sample.important_email; Sample.spam_email] (World {[ "m0"; "m1" ]} [])
    = (Done tt, w')
    /\ "m0" ∈ unread w' /\ "m1" ∉ unread w'.
Proof.
  destruct (mark_when_all_answered Sample.spam_run_svc
              [Sample.important_email; Sample.spam_email] (World {[ "m0"; "m1" ]} []))
    as (w' & Hrun & Hunread); [reflexivity|].
  exists w'. split; [exact Hrun|]. split.
  - apply Hunread. split; [cbn; set_solver|].
    intros (c & Hin & Hid & Hcat).
    apply elem_of_cons in Hin. destruct Hin as [->|Hin]; [discriminate Hcat|].
    apply elem_of_cons in Hin. destruct Hin as [->|Hin]; [discriminate Hid|].
    apply not_elem_of_nil in Hin. exact Hin.
  - intros Hin. apply Hunread in Hin. destruct Hin as [_ Hnot]. apply Hnot.
    exists Sample.spam_email.
    split; [apply list_elem_of_further, list_elem_of_here | split; reflexivity].
Defined.

(** ** Further properties: conversion and sending *)

(** X14: the conversion never raises and issues exactly one chat request,
    for the model [o1-preview], with one user message and no function.
    When the request raises, or the answer has no choice or no text, the
    result is the paragraph ["<p>Error converting Markdown to HTML: ...</p>"]
    around the text of the exception; otherwise it is the text of the first
    choice without its first and last line. *)
Theorem convert_md_to_html_outcome svc markdown_text w :
  convert_md_to_html svc markdown_text w
  = (Done match conversion_content (conversion_answer svc markdown_text w) with
          | Ok content => strip_fences content
          | Err e => "<p>Error converting Markdown to HTML: " +:+ exn_str e +:+ "</p>"
          end,
     World (unread w)
           (trace w ++ [Event (ReqChat "o1-preview" (conversion_messages markdown_text) false)
                              (answered (conversion_answer svc markdown_text w))])).
Proof.
  unfold convert_md_to_html, conversion_answer, conversion_messages, conversion_content,
    try_except, bind, execute.
  destruct (chat_completions_create _ _ _ _ _) as [[[|[[[content|] fc]] rest]]|e];
    reflexivity.
Qed.

Lemma slice_1_m1_short {A} (l : list A) : length l <= 2 -> slice_1_m1 l = [].
Proof.
  intros Hlen. unfold slice_1_m1.
  replace (length l - 2) with 0 by lia. apply take_0.
Qed.

(** X15: an answer that, stripped of surrounding white space, has fewer
    than three lines gives the empty string: there is nothing between its
    first and its last line. *)
Theorem strip_fences_short content :
  length (PyStr.split "010"%char (PyStr.strip content)) <= 2 ->
  strip_fences content = "".
Proof.
  intros Hlen. unfold strip_fences. rewrite (slice_1_m1_short _ Hlen). reflexivity.
Qed.

Lemma strip_fences_short_witness :
  strip_fences ("```html" +:+ PyStr.nl +:+ "```" +:+ PyStr.nl) = "".
Proof.
  apply strip_fences_short. vm_compute. lia.
Defined.

(** ** Further properties: main, continued *)

Lemma filter_classification_none evs :
  Forall (fun ev => is_classification (ev_req ev) = false) evs ->
  List.filter is_classification (map ev_req evs) = [].
Proof.
  induction 1 as [|ev evs Hev _ IH]; [reflexivity|].
  cbn [map List.filter]. rewrite Hev. exact IH.
Qed.

Lemma filter_classification_all emails :
  List.filter is_classification (map classification_request emails)
  = map classification_request emails.
Proof.
  induction emails as [|e emails IH]; [reflexivity|].
  cbn [map List.filter classification_request is_classification]. f_equal. exact IH.
Qed.

(** X16: a run of [main] issues exactly one classification request per
    record the fetcher returned, in the order of the fetch, and none
    otherwise: there is no retry and no record is skipped. *)
Theorem main_classifies_each_fetched svc fuel w w1 emails w2 :
  get_gmail_service svc w = (Done tt, w1) ->
  get_unread_emails_past_24h svc fuel w1 = (Done emails, w2) ->
  exists evs,
    trace (snd (main svc fuel w)) = trace w ++ evs
    /\ List.filter is_classification (map ev_req evs) = map classification_request emails.
Proof.
  intros Hauth Hfetch.
  assert (Hw1 : w1 = World (unread w) (trace w ++ [Event ReqBuild true])).
  { unfold get_gmail_service, execute in Hauth.
    destruct (gmail_build svc (trace w)) as [[]|x]; [|discriminate].
    inversion Hauth. reflexivity. }
  destruct (fetcher_post_all svc fuel w1) as (evs_f & Htrace_f & Hkind_f & _).
  rewrite Hfetch in Htrace_f. cbn [snd] in Htrace_f.
  assert (Hnone_f : Forall (fun ev => is_classification (ev_req ev) = false) evs_f).
  { eapply Forall_impl; [exact Hkind_f|]. intros ev Hev. cbn in Hev.
    destruct (ev_req ev); try discriminate; reflexivity. }
  destruct emails as [|e es].
  - exists (Event ReqBuild true :: evs_f).
    unfold main. rewrite (bind_done _ _ _ _ _ Hauth), (bind_done _ _ _ _ _ Hfetch).
    cbn [snd ret]. rewrite Htrace_f, Hw1. cbn [trace]. rewrite <- app_assoc.
    split; [reflexivity|]. cbn [map List.filter ev_req is_classification].
    apply filter_classification_none. exact Hnone_f.
  - destruct (main_after_fetch svc fuel w w1 e es w2 Hauth Hfetch)
      as (cl & evs_c & evs_m & evs_r & _ & Hreqs_c & _ & Htrace & Hreqs_m & _ & Hend).
    exists (Event ReqBuild true :: evs_f ++ evs_c ++ evs_m ++ evs_r).
    split; [rewrite Htrace, Htrace_f, Hw1; cbn [trace]; rewrite <- !app_assoc; reflexivity|].
    cbn [map List.filter ev_req is_classification].
    rewrite !map_app, !List.filter_app, Hreqs_c, Hreqs_m.
    rewrite (filter_classification_none evs_f Hnone_f), filter_classification_all.
    assert (Hm : List.filter is_classification (modify_requests cl) = []).
    { unfold modify_requests. induction (List.filter non_important cl) as [|c l IH];
        [reflexivity | exact IH]. }
    assert (Hr : List.filter is_classification (map ev_req evs_r) = []).
    { destruct Hend as [[_ (md & date & html & ok1 & ok2 & ->)] | [-> _]]; reflexivity. }
    rewrite Hm, Hr, !app_nil_r. reflexivity.
Qed.

Lemma main_classifies_each_fetched_witness :
  exists evs,
    trace (snd (main Sample.failing_modify_svc 1 Sample.w1)) = trace Sample.w1 ++ evs
    /\ List.filter is_classification (map ev_req evs)
       = map classification_request [Email "m1" "Offer" "preview"].
Proof.
  apply (main_classifies_each_fetched Sample.failing_modify_svc 1 Sample.w1
           (World {[ "m1" ]} [Event ReqBuild true]) [Email "m1" "Offer" "preview"]
           (World {[ "m1" ]} [ Event ReqBuild true;
                               Event (ReqList "is:unread newer_than:1d" None) true;
                               Event (ReqGet "m1") true ]));
    reflexivity.
Defined.

(** X17: when the category of every record is one of the three enumerated
    values, the three groups of the digest together hold every record
    exactly once. *)
Theorem enumerated_records_grouped_once classified_emails :
  Forall (fun e => enumerated (c_category e) = true) classified_emails ->
  classified_emails
  ≡ₚ List.filter (has_category "important") classified_emails
     ++ List.filter (has_category "notification") classified_emails
     ++ List.filter (has_category "newsletter") classified_emails.
Proof. apply groups_partition. Qed.

(** ** Further properties: the authenticator *)

(** X18: after a successful authentication the token file holds the very
    credential the service was built with, whichever way it was obtained. *)
Theorem token_file_holds_service_credentials env st service st' :
  Authenticator.get_gmail_service env st = (Ok service, st') ->
  Authenticator.token_file st' = Some (Authenticator.service_credentials service).
Proof.
  unfold Authenticator.get_gmail_service, Authenticator.login, Authenticator.save_and_build,
    Authenticator.build_service.
  intros Hrun.
  destruct (Authenticator.token_file st) as [creds|] eqn:Hfile.
  - destruct (Authenticator.cred_valid creds).
    + destruct (Authenticator.build env creds); inversion Hrun; subst; cbn;
        first [reflexivity | exact Hfile].
    + destruct (Authenticator.cred_expired creds && Authenticator.has_refresh_token creds).
      * destruct (Authenticator.refresh env creds) as [creds'|e]; [|discriminate].
        cbn in Hrun. destruct (Authenticator.build env creds'); inversion Hrun; reflexivity.
      * destruct (Authenticator.run_flow env) as [creds'|e]; [|discriminate].
        cbn in Hrun. destruct (Authenticator.build env creds'); inversion Hrun; reflexivity.
  - destruct (Authenticator.run_flow env) as [creds'|e]; [|discriminate].
    cbn in Hrun. destruct (Authenticator.build env creds'); inversion Hrun; reflexivity.
Qed.

Lemma token_file_holds_service_credentials_witness :
  Authenticator.token_file
    (snd (Authenticator.get_gmail_service Scenario.auth_env Scenario.expired_cache))
  = Some Scenario.refreshed_credentials.
Proof.
  apply (token_file_holds_service_credentials Scenario.auth_env Scenario.expired_cache
           (Authenticator.Service Scenario.refreshed_credentials)).
  reflexivity.
Defined.

(** X19: a valid cached credential is reused as it is: the only step is
    the build of the service with it; nothing is refreshed, no flow is run,
    and the token file is not written. *)
Theorem valid_cache_is_reused env st creds :
  Authenticator.token_file st = Some creds ->
  Authenticator.cred_valid creds = true ->
  exists ok,
    snd (Authenticator.get_gmail_service env st)
    = Authenticator.State (Some creds)
        (Authenticator.steps st ++ [Authenticator.Build creds ok])
    /\ (ok = true ->
        fst (Authenticator.get_gmail_service env st) = Ok (Authenticator.Service creds)).
Proof.
  intros Hfile Hvalid.
  unfold Authenticator.get_gmail_service, Authenticator.build_service.
  rewrite Hfile, Hvalid.
  destruct (Authenticator.build env creds) as [[]|e]; [exists true | exists false];
    cbn; rewrite ?Hfile; (split; [reflexivity|]); [reflexivity | discriminate].
Qed.

Lemma valid_cache_is_reused_witness :
  exists ok,
    snd (Authenticator.get_gmail_service Scenario.auth_env Scenario.valid_cache)
    = Authenticator.State (Some Scenario.refreshed_credentials)
        [Authenticator.Build Scenario.refreshed_credentials ok]
    /\ (ok = true ->
        fst (Authenticator.get_gmail_service Scenario.auth_env Scenario.valid_cache)
        = Ok (Authenticator.Service Scenario.refreshed_credentials)).
Proof.
  apply (valid_cache_is_reused Scenario.auth_env Scenario.valid_cache
           Scenario.refreshed_credentials); reflexivity.
Defined.

(** X20: when the cached credential is not valid, is expired and has a
    refresh token, the script refreshes it and does not run the interactive
    flow. If the refresh raises, the authenticator raises the same
    exception with the token file as it was and no further step; if it
    returns, the refreshed credential is written to the token file before
    the service is built with it. *)
Theorem refresh_without_fallback env st creds :
  Authenticator.token_file st = Some creds ->
  Authenticator.cred_valid creds = false ->
  Authenticator.cred_expired creds = true ->
  Authenticator.has_refresh_token creds = true ->
  match Authenticator.refresh env creds with
  | Err e =>
      Authenticator.get_gmail_service env st
      = (Err e, Authenticator.State (Some creds)
                  (Authenticator.steps st ++ [Authenticator.Refresh creds false]))
  | Ok creds' =>
      exists ok,
        snd (Authenticator.get_gmail_service env st)
        = Authenticator.State (Some creds')
            (Authenticator.steps st
             ++ [ Authenticator.Refresh creds true;
                  Authenticator.Dump creds';
                  Authenticator.Build creds' ok ])
  end.
Proof.
  intros Hfile Hvalid Hexpired Htoken.
  unfold Authenticator.get_gmail_service, Authenticator.save_and_build,
    Authenticator.build_service.
  rewrite Hfile, Hvalid, Hexpired, Htoken. cbn [andb].
  destruct (Authenticator.refresh env creds) as [creds'|e]; [|rewrite ?Hfile; reflexivity].
  cbn [Authenticator.steps Authenticator.token_file].
  destruct (Authenticator.build env creds') as [[]|e]; [exists true | exists false];
    cbn [snd]; rewrite <- !app_assoc; reflexivity.
Qed.

Lemma refresh_without_fallback_witness :
  exists ok,
    snd (Authenticator.get_gmail_service Scenario.auth_env Scenario.expired_cache)
    = Authenticator.State (Some Scenario.refreshed_credentials)
        [ Authenticator.Refresh Scenario.stale_credentials true;
          Authenticator.Dump Scenario.refreshed_credentials;
          Authenticator.Build Scenario.refreshed_credentials ok ].
Proof.
  apply (refresh_without_fallback Scenario.auth_env Scenario.expired_cache
           Scenario.stale_credentials); reflexivity.
Defined.

(** ** Runs of the further properties on sample data *)

Lemma fetcher_returns_retrieved_witness :
  map email_id [Email "m1" "Offer" "preview"; Email "m2" "Offer" "preview"]
  = get_ids [ Event (ReqList "is:unread newer_than:1d" None) true;
              Event (ReqGet "m1") true;
              Event (ReqList "is:unread newer_than:1d" (Some "p2")) true;
              Event (ReqGet "m2") true ].
Proof.
  apply (fetcher_returns_retrieved Scenario.two_pages_svc 2 Sample.w0 _
           (snd (get_unread_emails_past_24h Scenario.two_pages_svc 2 Sample.w0))).
  - reflexivity.
  - reflexivity.
  - repeat constructor.
Defined.

Lemma subject_first_match_witness :
  email_subject (email_of_detail "m1" Scenario.two_subjects) = "Hello".
Proof.
  apply (subject_first_match "m1" Scenario.two_subjects
           [Header "From" "a@example.org"] (Header "SUBJECT" "Hello")
           [Header "Subject" "Other"]).
  - reflexivity.
  - repeat constructor.
  - reflexivity.
Defined.

Lemma main_raises_on_non_str_summary_witness :
  exists x evs_m,
    fst (main Scenario.number_summary_svc 1 Sample.w1) = Raised x
    /\ exn_class x = "TypeError"
    /\ trace (snd (main Scenario.number_summary_svc 1 Sample.w1))
       = [ Event ReqBuild true;
           Event (ReqList "is:unread newer_than:1d" None) true;
           Event (ReqGet "m1") true;
           Event (classification_request (Email "m1" "Offer" "preview")) true ] ++ evs_m
    /\ map ev_req evs_m
       = modify_requests [ClassifiedEmail "m1" "Offer" "preview"
                                          (PyString "newsletter") (PyInt 5)].
Proof.
  apply (main_raises_on_non_str_summary Scenario.number_summary_svc 1 Sample.w1
           (World {[ "m1" ]} [Event ReqBuild true])
           (Email "m1" "Offer" "preview") []
           (World {[ "m1" ]} [ Event ReqBuild true;
                               Event (ReqList "is:unread newer_than:1d" None) true;
                               Event (ReqGet "m1") true ])
           [ClassifiedEmail "m1" "Offer" "preview" (PyString "newsletter") (PyInt 5)]
           (World {[ "m1" ]}
                  [ Event ReqBuild true;
                    Event (ReqList "is:unread newer_than:1d" None) true;
                    Event (ReqGet "m1") true;
                    Event (classification_request (Email "m1" "Offer" "preview")) true ]));
    reflexivity.
Defined.

Lemma enumerated_records_grouped_once_witness :
  [Scenario.newsletter_email; Sample.important_email]
  ≡ₚ [Sample.important_email] ++ [] ++ [Scenario.newsletter_email].
Proof.
  apply (enumerated_records_grouped_once
           [Scenario.newsletter_email; Sample.important_email]).
  repeat constructor.
Defined.

(** X21: without a usable cached credential (no token file, or a cached
    credential that is not valid and is not both expired and equipped with
    a refresh token) the script runs the OAuth flow. If the flow raises,
    the authenticator raises the same exception and the token file is as
    it was; if it returns, the new credential is written to the token file
    before the service is built with it. *)
Theorem login_when_no_usable_cache env st :
  match Authenticator.token_file st with
  | None => True
  | Some creds =>
      Authenticator.cred_valid creds = false
      /\ Authenticator.cred_expired creds && Authenticator.has_refresh_token creds = false
  end ->
  match Authenticator.run_flow env with
  | Err e =>
      Authenticator.get_gmail_service env st
      = (Err e, Authenticator.State (Authenticator.token_file st)
                  (Authenticator.steps st ++ [Authenticator.RunFlow false]))
  | Ok creds' =>
      exists ok,
        snd (Authenticator.get_gmail_service env st)
        = Authenticator.State (Some creds')
            (Authenticator.steps st
             ++ [ Authenticator.RunFlow true;
                  Authenticator.Dump creds';
                  Authenticator.Build creds' ok ])
  end.
Proof.
  intros Hcache.
  assert (Hlogin : Authenticator.get_gmail_service env st = Authenticator.login env st).
  { unfold Authenticator.get_gmail_service.
    destruct (Authenticator.token_file st) as [creds|]; [|reflexivity].
    destruct Hcache as [-> ->]. reflexivity. }
  rewrite Hlogin. unfold Authenticator.login, Authenticator.save_and_build,
    Authenticator.build_service.
  destruct (Authenticator.run_flow env) as [creds'|e]; [|reflexivity].
  cbn [Authenticator.steps Authenticator.token_file].
  destruct (Authenticator.build env creds') as [[]|e]; [exists true | exists false];
    cbn [snd]; rewrite <- !app_assoc; reflexivity.
Qed.

Lemma login_when_no_usable_cache_witness :
  Authenticator.get_gmail_service Scenario.auth_env (Authenticator.State None [])
  = (Err (Exn "FileNotFoundError" "secrets/credentials.json"),
     Authenticator.State None [Authenticator.RunFlow false]).
Proof.
  apply (login_when_no_usable_cache Scenario.auth_env (Authenticator.State None [])).
  exact I.
Defined.

(** ** Further properties: a run in which everything is answered *)




(** ** The digest against the words of the specification *)

Lemma py_eq_str_true v name : py_eq_str v name = true <-> v = PyString name.
Proof.
  split.
  - destruct v; cbn; try discriminate. intros H. apply String.eqb_eq in H. congruence.
  - intros ->. cbn. apply String.eqb_refl.
Qed.

Lemma group_entries name records : forall n,
  Forall (fun c => c_category c = PyString name -> exists text, c_summary c = PyString text)
         records ->
  exists group,
    DigestSpec.group_of name records group
    /\ all_str (concat (imap (fun k e => entry_lines (n + k) e)
                             (List.filter (has_category name) records)))
       = Ok (DigestSpec.numbered n group)
    /\ (group = [] <-> List.filter (has_category name) records = []).
Proof.
  induction records as [|c records IH]; intros n Hstr.
  - exists []. split; [constructor|]. split; [reflexivity | tauto].
  - inversion Hstr as [|c' records' Hc Hrest]; subst.
    cbn [List.filter].
    destruct (has_category name c) eqn:Hcat; unfold has_category in Hcat; cbv iota.
    + apply py_eq_str_true in Hcat. destruct (Hc Hcat) as [text Htext].
      destruct (IH (S n) Hrest) as (group & Hgroup & Hlines & _).
      exists ((c_subject c, text) :: group).
      split; [constructor; assumption|]. split; [|split; discriminate].
      cbn [imap concat]. rewrite Nat.add_0_r.
      rewrite (imap_ext _ (fun k e => entry_lines (S n + k) e));
        [|intros k x _; cbn; f_equal; lia].
      unfold entry_lines at 1. rewrite Htext. cbn [app all_str].
      rewrite Hlines. reflexivity.
    + destruct (IH n Hrest) as (group & Hgroup & Hlines & Hempty).
      exists group. split; [|split; assumption].
      apply DigestSpec.group_skip; [|exact Hgroup].
      intros Heq. apply py_eq_str_true in Heq. congruence.
Qed.

Lemma group_block_spec name header records :
  Forall (fun c => c_category c = PyString name -> exists text, c_summary c = PyString text)
         records ->
  exists group,
    DigestSpec.group_of name records group
    /\ all_str (group_block (header +:+ PyStr.nl) (List.filter (has_category name) records))
       = Ok (DigestSpec.block header group).
Proof.
  intros Hstr. destruct (group_entries name records 1 Hstr) as (group & Hgroup & Hlines & Hempty).
  exists group. split; [exact Hgroup|].
  unfold group_block, DigestSpec.block.
  destruct (List.filter (has_category name) records) as [|e l] eqn:Hfilter.
  - rewrite (proj2 Hempty eq_refl). reflexivity.
  - destruct group as [|entry group].
    + destruct Hempty as [Habs _]. discriminate (Habs eq_refl).
    + apply all_str_cons. exact Hlines.
Qed.

(** X23: when the summary of every record in one of the three groups is a
    [str], the reporter returns the digest the specification describes:
    the title line, then the important, the notification and the
    newsletter group in this order, then the closing line; each group
    holds exactly the records of its category, in the order of the list; a
    group that is not empty is introduced by its header and its entries
    are numbered 1, 2, ...; an empty group leaves no trace. *)
Theorem generate_executive_summary_spec svc classified_emails w :
  Forall (fun c => DigestSpec.grouped c -> exists text, c_summary c = PyString text)
         classified_emails ->
  exists important notification newsletter,
    DigestSpec.group_of "important" classified_emails important
    /\ DigestSpec.group_of "notification" classified_emails notification
    /\ DigestSpec.group_of "newsletter" classified_emails newsletter
    /\ generate_executive_summary svc classified_emails w
       = (Done (DigestSpec.digest (datetime_now svc (trace w))
                                  important notification newsletter), w).
Proof.
  intros Hstr.
  assert (Hname : forall name,
             name = "important" \/ name = "notification" \/ name = "newsletter" ->
             Forall (fun c => c_category c = PyString name ->
                              exists text, c_summary c = PyString text) classified_emails).
  { intros name Hname. eapply Forall_impl; [exact Hstr|].
    intros c Hc Hcat. apply Hc. unfold DigestSpec.grouped.
    destruct Hname as [->|[->| ->]]; tauto. }
  destruct (group_block_spec "important" "### Important Emails" classified_emails)
    as (important & Hg1 & H1); [apply Hname; tauto|].
  destruct (group_block_spec "notification" "### Notifications" classified_emails)
    as (notification & Hg2 & H2); [apply Hname; tauto|].
  destruct (group_block_spec "newsletter" "### Newsletters" classified_emails)
    as (newsletter & Hg3 & H3); [apply Hname; tauto|].
  exists important, notification, newsletter.
  split; [exact Hg1|]. split; [exact Hg2|]. split; [exact Hg3|].
  unfold generate_executive_summary, get_current_date_string, bind.
  rewrite summary_lines_layout. unfold digest_layout, py_join.
  erewrite all_str_app; [| reflexivity |].
  2:{ apply all_str_app; [exact H1|]. apply all_str_app; [exact H2|].
      apply all_str_app; [exact H3 | reflexivity]. }
  reflexivity.
Qed.

Lemma generate_executive_summary_spec_witness :
  exists important notification newsletter,
    DigestSpec.group_of "important" Scenario.three_records important
    /\ DigestSpec.group_of "notification" Scenario.three_records notification
    /\ DigestSpec.group_of "newsletter" Scenario.three_records newsletter
    /\ generate_executive_summary Sample.spam_run_svc Scenario.three_records Sample.w0
       = (Done (DigestSpec.digest "January 01, 2025" important notification newsletter),
          Sample.w0).
Proof.
  apply (generate_executive_summary_spec Sample.spam_run_svc Scenario.three_records Sample.w0).
  repeat constructor; intros _; eexists; reflexivity.
Defined.

(** The digest of the three sample records, written out: the two
    important records come first and are numbered 1 and 2, the newsletter
    follows under its own header and is numbered 1, and there is no
    header for notifications. *)
Example three_records_digest :
  DigestSpec.group_of "important" Scenario.three_records
    [("Invoice", "Pay the invoice."); ("Contract", "Sign by Monday.")]
  /\ DigestSpec.group_of "notification" Scenario.three_records []
  /\ DigestSpec.group_of "newsletter" Scenario.three_records [("Weekly", "Offers.")]
  /\ fst (generate_executive_summary Sample.spam_run_svc Scenario.three_records Sample.w0)
     = Done (PyStr.join PyStr.nl
               [ "**Executive Summary for January 01, 2025**" +:+ PyStr.nl;
                 "### Important Emails" +:+ PyStr.nl;
                 "**1.** **Subject:** Invoice"; "Pay the invoice."; "";
                 "**2.** **Subject:** Contract"; "Sign by Monday."; "";
                 "### Newsletters" +:+ PyStr.nl;
                 "**1.** **Subject:** Weekly"; "Offers."; "";
                 PyStr.nl +:+ "**End of Summary**" ]).
Proof.
  split; [|split; [|split]].
  - apply DigestSpec.group_skip; [discriminate|].
    apply (DigestSpec.group_take _ Sample.important_email); [reflexivity..|].
    apply (DigestSpec.group_take _ Scenario.contract_email); [reflexivity..|].
    constructor.
  - repeat (apply DigestSpec.group_skip; [discriminate|]). constructor.
  - apply (DigestSpec.group_take _ Scenario.newsletter_email); [reflexivity..|].
    repeat (apply DigestSpec.group_skip; [discriminate|]). constructor.
  - reflexivity.
Qed.

(** C6, at the failing input: the model answers with the number 5 for a
    summary, the classifier attaches it as it is, and for the resulting
    list the reporter raises a [TypeError] at the final join: no digest
    is produced, grouped or otherwise. *)
Theorem digest_raises_on_number_summary :
  fst (classify_all Scenario.number_summary_svc [Email "m1" "Offer" "preview"] []
                    Sample.w1)
  = Done [Scenario.number_email]
  /\ exists x,
       generate_executive_summary Scenario.number_summary_svc [Scenario.number_email]
                                  Sample.w1
       = (Raised x, Sample.w1)
       /\ exn_class x = "TypeError".
Proof.
  split; [reflexivity|]. eexists. split; reflexivity.
Qed.
